(** * minicap, API level 22 back end: a model of [minicap_22.cpp]

    The file follows [jni/minicap-shared/aosp/src/minicap_22.cpp]:
    the frame waiter (a counter behind a mutex and a condition variable),
    the capture session [MinicapImpl] with its virtual display and its
    CPU consumer, the pixel format table and the display query.

    Calls into the Android libraries (SurfaceComposerClient, BufferQueue,
    CpuConsumer) are outside the repository.  Their results enter the
    model as arguments, and the calls the session makes are recorded in
    the order in which the code makes them. *)

From Stdlib Require Import ZArith NArith List Bool Lia String.
Import ListNotations.
Local Open Scope Z_scope.

(** * Machine integers

    The C++ integer types are modelled on [Z], with the reduction to the
    width of the type written where the code stores or computes a value. *)

Definition to_uint32 (z : Z) : Z := z mod 2 ^ 32.
Definition to_uint8 (z : Z) : Z := z mod 2 ^ 8.
Definition to_int32 (z : Z) : Z := (z + 2 ^ 31) mod 2 ^ 32 - 2 ^ 31.

Definition INT_MAX : Z := 2 ^ 31 - 1.
Definition INT_MIN : Z := - 2 ^ 31.

Definition is_uint32 (z : Z) : Prop := 0 <= z < 2 ^ 32.
Definition is_int32 (z : Z) : Prop := INT_MIN <= z <= INT_MAX.

(** [android::status_t]: only [NO_ERROR] is told apart from the rest. *)
Definition status_t := Z.
Definition NO_ERROR : status_t := 0.

(** * FrameWaiter

    [mPendingFrames] is an [int].  Both methods run with [mMutex] held,
    so each is one atomic step on the counter.  [waitForFrame] stays in
    [mCondition.wait] while the counter is 0: the model answers [None]
    for a call that cannot leave the loop in the present state. *)

Module FrameWaiter.

Record t : Set := mk { mPendingFrames : Z }.

(** The constructor: [mPendingFrames(0)]. *)
Definition new : t := mk 0.

(** [mPendingFrames++; mCondition.signal();]  C++ leaves the increment of
    an [int] at [INT_MAX] undefined; the model takes the two's complement
    result, which is what the 32-bit add of the target computes. *)
Definition onFrameAvailable (w : t) : t :=
  mk (to_int32 (mPendingFrames w + 1)).

(** [while (mPendingFrames == 0) wait; mPendingFrames--;] *)
Definition waitForFrame (w : t) : option t :=
  if mPendingFrames w =? 0 then None
  else Some (mk (to_int32 (mPendingFrames w - 1))).

(** The producer thread and the consumer thread, serialised by the
    mutex: a history is the order in which the calls complete. *)
Inductive op : Set := Signal | Wait.

Fixpoint run (ops : list op) (w : t) : option t :=
  match ops with
  | [] => Some w
  | Signal :: rest => run rest (onFrameAvailable w)
  | Wait :: rest =>
      match waitForFrame w with
      | Some w' => run rest w'
      | None => None
      end
  end.

Fixpoint signals (ops : list op) : Z :=
  match ops with
  | [] => 0
  | Signal :: rest => 1 + signals rest
  | Wait :: rest => signals rest
  end.

Fixpoint waits (ops : list op) : Z :=
  match ops with
  | [] => 0
  | Signal :: rest => waits rest
  | Wait :: rest => 1 + waits rest
  end.

(** No signal arrives while [INT_MAX] signals are pending: scanning the
    history with [pending] signals in hand, every signal finds the
    count below [INT_MAX]. *)
Fixpoint below_int_max (pending : Z) (ops : list op) : bool :=
  match ops with
  | [] => true
  | Signal :: rest => (pending <? INT_MAX) && below_int_max (pending + 1) rest
  | Wait :: rest => below_int_max (pending - 1) rest
  end.

(** No wait is called before a signal it can consume has arrived:
    scanning the history with [pending] signals in hand never finds a
    wait at 0. *)
Fixpoint waits_covered (pending : Z) (ops : list op) : bool :=
  match ops with
  | [] => true
  | Signal :: rest => waits_covered (pending + 1) rest
  | Wait :: rest => (0 <? pending) && waits_covered (pending - 1) rest
  end.

End FrameWaiter.

(** * Types of the Android libraries

    [sp<T>] is a counted pointer that may be null; the objects behind it
    live in the libraries, so a pointer is an opaque name. *)

Definition handle : Set := positive.
Definition sp : Set := option handle.

(** The operations of [float] and [double] the display query uses.  The
    code never inspects a floating-point value, so the arithmetic stays a
    parameter: the conversion of a [uint32_t], of the literal [2],
    division, addition, [pow] and [sqrt]. *)
Class FloatOps (F : Type) : Type := {
  of_uint32 : Z -> F;
  of_int : Z -> F;
  fdiv : F -> F -> F;
  fadd : F -> F -> F;
  pow : F -> F -> F;
  sqrt : F -> F
}.

Module android.

(** [android::DisplayInfo], the fields the code reads. *)
Record DisplayInfo (F : Type) : Type := mkDisplayInfo {
  w : Z;
  h : Z;
  xdpi : F;
  ydpi : F;
  fps : F;
  density : F;
  orientation : Z;
  secure : bool
}.
Arguments mkDisplayInfo {F}.
Arguments w {F}.
Arguments h {F}.
Arguments xdpi {F}.
Arguments ydpi {F}.
Arguments fps {F}.
Arguments density {F}.
Arguments orientation {F}.
Arguments secure {F}.

(** [android::CpuConsumer::LockedBuffer], the fields the code reads:
    [data] is a pointer, [format] a [PixelFormat] ([int32_t]), the other
    three are [uint32_t]. *)
Record LockedBuffer : Set := mkLockedBuffer {
  data : Z;
  width : Z;
  height : Z;
  format : Z;
  stride : Z
}.

(** [android::Rect]; the constructor [Rect(int32_t w, int32_t h)] puts
    the origin at 0. *)
Record Rect : Set := mkRect { left : Z; top : Z; right : Z; bottom : Z }.

Definition Rect_wh (w h : Z) : Rect := mkRect 0 0 (to_int32 w) (to_int32 h).

(** The native pixel format codes of [ui/PixelFormat.h] and
    [android::bytesPerPixel], which the repository takes from the
    platform headers. *)
Class PixelFormats : Set := {
  PIXEL_FORMAT_NONE : Z;
  PIXEL_FORMAT_CUSTOM : Z;
  PIXEL_FORMAT_TRANSLUCENT : Z;
  PIXEL_FORMAT_TRANSPARENT : Z;
  PIXEL_FORMAT_OPAQUE : Z;
  PIXEL_FORMAT_RGBA_8888 : Z;
  PIXEL_FORMAT_RGBX_8888 : Z;
  PIXEL_FORMAT_RGB_888 : Z;
  PIXEL_FORMAT_RGB_565 : Z;
  PIXEL_FORMAT_BGRA_8888 : Z;
  PIXEL_FORMAT_RGBA_5551 : Z;
  PIXEL_FORMAT_RGBA_4444 : Z;
  bytesPerPixel : Z -> Z
}.

(** The case labels of a [switch], in the order of [convertFormat]; C++
    accepts the [switch] only if they are pairwise different. *)
Definition case_labels (pf : PixelFormats) : list Z :=
  [ PIXEL_FORMAT_NONE; PIXEL_FORMAT_CUSTOM; PIXEL_FORMAT_TRANSLUCENT;
    PIXEL_FORMAT_TRANSPARENT; PIXEL_FORMAT_OPAQUE; PIXEL_FORMAT_RGBA_8888;
    PIXEL_FORMAT_RGBX_8888; PIXEL_FORMAT_RGB_888; PIXEL_FORMAT_RGB_565;
    PIXEL_FORMAT_BGRA_8888; PIXEL_FORMAT_RGBA_5551; PIXEL_FORMAT_RGBA_4444 ].

(** An instance to run the model on: the codes as Android 5.1 numbers
    them, 4, 3 or 2 bytes for the RGB layouts and [BAD_VALUE] (-22) for
    the rest. *)
Definition api22 : PixelFormats := {|
  PIXEL_FORMAT_NONE := 0;
  PIXEL_FORMAT_CUSTOM := -4;
  PIXEL_FORMAT_TRANSLUCENT := -3;
  PIXEL_FORMAT_TRANSPARENT := -2;
  PIXEL_FORMAT_OPAQUE := -1;
  PIXEL_FORMAT_RGBA_8888 := 1;
  PIXEL_FORMAT_RGBX_8888 := 2;
  PIXEL_FORMAT_RGB_888 := 3;
  PIXEL_FORMAT_RGB_565 := 4;
  PIXEL_FORMAT_BGRA_8888 := 5;
  PIXEL_FORMAT_RGBA_5551 := 6;
  PIXEL_FORMAT_RGBA_4444 := 7;
  bytesPerPixel := fun f =>
    if (f =? 1) || (f =? 2) || (f =? 5) then 4
    else if f =? 3 then 3
    else if (f =? 4) || (f =? 6) || (f =? 7) then 2
    else -22
|}.

End android.

(** * Types of [Minicap.hpp]

    Modelled from the spec: [Minicap.hpp] is not among the sources; the
    records and the two enumerations follow the boundary structures of
    the specification (section 6). *)

Module Minicap.

Inductive CaptureMethod : Set := METHOD_VIRTUAL_DISPLAY.

Inductive Format : Set :=
| FORMAT_NONE
| FORMAT_CUSTOM
| FORMAT_TRANSLUCENT
| FORMAT_TRANSPARENT
| FORMAT_OPAQUE
| FORMAT_RGBA_8888
| FORMAT_RGBX_8888
| FORMAT_RGB_888
| FORMAT_RGB_565
| FORMAT_BGRA_8888
| FORMAT_RGBA_5551
| FORMAT_RGBA_4444
| FORMAT_UNKNOWN.

Module DisplayInfo.
Record t (F : Type) : Type := mk {
  width : Z;
  height : Z;
  orientation : Z;
  fps : F;
  density : F;
  xdpi : F;
  ydpi : F;
  secure : bool;
  size : F
}.
Arguments mk {F}.
Arguments width {F}.
Arguments height {F}.
Arguments orientation {F}.
Arguments fps {F}.
Arguments density {F}.
Arguments xdpi {F}.
Arguments ydpi {F}.
Arguments secure {F}.
Arguments size {F}.
End DisplayInfo.

Module Frame.
Record t : Set := mk {
  data : Z;
  format : Format;
  width : Z;
  height : Z;
  stride : Z;
  bpp : Z;
  size : Z
}.
End Frame.

End Minicap.

(** * The session and its calls into the platform *)

(** The calls a session makes into SurfaceComposerClient, BufferQueue
    and CpuConsumer, with their arguments. *)
Inductive call : Set :=
| destroyDisplay (display : sp)
| unlockBuffer (consumer : handle) (buffer : android.LockedBuffer)
| lockNextBuffer (consumer : handle)
| new_SurfaceComposerClient
| initCheck
| createDisplay (displayName : string) (secure : bool)
| createBufferQueue
| disableAsyncBuffer (bufferConsumer : handle)
| setDefaultBufferSize (bufferConsumer : handle) (w h : Z)
| setDefaultBufferFormat (bufferConsumer : handle) (format : Z)
| new_CpuConsumer (bufferConsumer : handle) (maxLockedBuffers : Z)
    (controlledByApp : bool)
| setName (consumer : handle) (name : string)
| setFrameAvailableListener (consumer : handle)
| openGlobalTransaction
| setDisplaySurface (display : sp) (bufferProducer : sp)
| setDisplayProjection (display : sp) (orientation : Z)
    (layerStackRect visibleRect : android.Rect)
| setDisplayLayerStack (display : sp) (layerStack : Z)
| closeGlobalTransaction.

(** What the platform answers while a virtual display is created:
    the status of [initCheck], the display token (null when the
    compositor refuses), the two ends of the fresh buffer queue and the
    fresh CPU consumer (all three allocated with [new]). *)
Record Composer : Set := mkComposer {
  initCheck_status : status_t;
  createDisplay_token : sp;
  createBufferQueue_producer : handle;
  createBufferQueue_consumer : handle;
  new_CpuConsumer_object : handle
}.

Module MinicapImpl.

Import android.

Record t : Set := mk {
  mDisplayId : Z;
  mRealWidth : Z;
  mRealHeight : Z;
  mDesiredWidth : Z;
  mDesiredHeight : Z;
  mDesiredOrientation : Z;
  mBufferProducer : sp;
  mBufferConsumer : sp;
  mConsumer : sp;
  mVirtualDisplay : sp;
  mWaiter : option FrameWaiter.t;
  mHaveBuffer : bool;
  mHavePendingFrame : bool;
  mHaveRunningDisplay : bool;
  mBuffer : LockedBuffer
}.

(** The constructor; it leaves [mBuffer] as the allocator hands it over. *)
Definition new (displayId : Z) (uninitialised : LockedBuffer) : t :=
  mk displayId 0 0 0 0 0 None None None None None false false false
     uninitialised.

(** Assignments to one member. *)
Definition set_mRealWidth (v : Z) (s : t) : t :=
  mk (mDisplayId s) v (mRealHeight s) (mDesiredWidth s) (mDesiredHeight s)
     (mDesiredOrientation s) (mBufferProducer s) (mBufferConsumer s)
     (mConsumer s) (mVirtualDisplay s) (mWaiter s) (mHaveBuffer s)
     (mHavePendingFrame s) (mHaveRunningDisplay s) (mBuffer s).
Definition set_mRealHeight (v : Z) (s : t) : t :=
  mk (mDisplayId s) (mRealWidth s) v (mDesiredWidth s) (mDesiredHeight s)
     (mDesiredOrientation s) (mBufferProducer s) (mBufferConsumer s)
     (mConsumer s) (mVirtualDisplay s) (mWaiter s) (mHaveBuffer s)
     (mHavePendingFrame s) (mHaveRunningDisplay s) (mBuffer s).
Definition set_mDesiredWidth (v : Z) (s : t) : t :=
  mk (mDisplayId s) (mRealWidth s) (mRealHeight s) v (mDesiredHeight s)
     (mDesiredOrientation s) (mBufferProducer s) (mBufferConsumer s)
     (mConsumer s) (mVirtualDisplay s) (mWaiter s) (mHaveBuffer s)
     (mHavePendingFrame s) (mHaveRunningDisplay s) (mBuffer s).
Definition set_mDesiredHeight (v : Z) (s : t) : t :=
  mk (mDisplayId s) (mRealWidth s) (mRealHeight s) (mDesiredWidth s) v
     (mDesiredOrientation s) (mBufferProducer s) (mBufferConsumer s)
     (mConsumer s) (mVirtualDisplay s) (mWaiter s) (mHaveBuffer s)
     (mHavePendingFrame s) (mHaveRunningDisplay s) (mBuffer s).
Definition set_mDesiredOrientation (v : Z) (s : t) : t :=
  mk (mDisplayId s) (mRealWidth s) (mRealHeight s) (mDesiredWidth s)
     (mDesiredHeight s) v (mBufferProducer s) (mBufferConsumer s)
     (mConsumer s) (mVirtualDisplay s) (mWaiter s) (mHaveBuffer s)
     (mHavePendingFrame s) (mHaveRunningDisplay s) (mBuffer s).
Definition set_mBufferProducer (v : sp) (s : t) : t :=
  mk (mDisplayId s) (mRealWidth s) (mRealHeight s) (mDesiredWidth s)
     (mDesiredHeight s) (mDesiredOrientation s) v (mBufferConsumer s)
     (mConsumer s) (mVirtualDisplay s) (mWaiter s) (mHaveBuffer s)
     (mHavePendingFrame s) (mHaveRunningDisplay s) (mBuffer s).
Definition set_mBufferConsumer (v : sp) (s : t) : t :=
  mk (mDisplayId s) (mRealWidth s) (mRealHeight s) (mDesiredWidth s)
     (mDesiredHeight s) (mDesiredOrientation s) (mBufferProducer s) v
     (mConsumer s) (mVirtualDisplay s) (mWaiter s) (mHaveBuffer s)
     (mHavePendingFrame s) (mHaveRunningDisplay s) (mBuffer s).
Definition set_mConsumer (v : sp) (s : t) : t :=
  mk (mDisplayId s) (mRealWidth s) (mRealHeight s) (mDesiredWidth s)
     (mDesiredHeight s) (mDesiredOrientation s) (mBufferProducer s)
     (mBufferConsumer s) v (mVirtualDisplay s) (mWaiter s) (mHaveBuffer s)
     (mHavePendingFrame s) (mHaveRunningDisplay s) (mBuffer s).
Definition set_mVirtualDisplay (v : sp) (s : t) : t :=
  mk (mDisplayId s) (mRealWidth s) (mRealHeight s) (mDesiredWidth s)
     (mDesiredHeight s) (mDesiredOrientation s) (mBufferProducer s)
     (mBufferConsumer s) (mConsumer s) v (mWaiter s) (mHaveBuffer s)
     (mHavePendingFrame s) (mHaveRunningDisplay s) (mBuffer s).
Definition set_mWaiter (v : option FrameWaiter.t) (s : t) : t :=
  mk (mDisplayId s) (mRealWidth s) (mRealHeight s) (mDesiredWidth s)
     (mDesiredHeight s) (mDesiredOrientation s) (mBufferProducer s)
     (mBufferConsumer s) (mConsumer s) (mVirtualDisplay s) v (mHaveBuffer s)
     (mHavePendingFrame s) (mHaveRunningDisplay s) (mBuffer s).
Definition set_mHaveBuffer (v : bool) (s : t) : t :=
  mk (mDisplayId s) (mRealWidth s) (mRealHeight s) (mDesiredWidth s)
     (mDesiredHeight s) (mDesiredOrientation s) (mBufferProducer s)
     (mBufferConsumer s) (mConsumer s) (mVirtualDisplay s) (mWaiter s) v
     (mHavePendingFrame s) (mHaveRunningDisplay s) (mBuffer s).
Definition set_mHavePendingFrame (v : bool) (s : t) : t :=
  mk (mDisplayId s) (mRealWidth s) (mRealHeight s) (mDesiredWidth s)
     (mDesiredHeight s) (mDesiredOrientation s) (mBufferProducer s)
     (mBufferConsumer s) (mConsumer s) (mVirtualDisplay s) (mWaiter s)
     (mHaveBuffer s) v (mHaveRunningDisplay s) (mBuffer s).
Definition set_mHaveRunningDisplay (v : bool) (s : t) : t :=
  mk (mDisplayId s) (mRealWidth s) (mRealHeight s) (mDesiredWidth s)
     (mDesiredHeight s) (mDesiredOrientation s) (mBufferProducer s)
     (mBufferConsumer s) (mConsumer s) (mVirtualDisplay s) (mWaiter s)
     (mHaveBuffer s) (mHavePendingFrame s) v (mBuffer s).
Definition set_mBuffer (v : LockedBuffer) (s : t) : t :=
  mk (mDisplayId s) (mRealWidth s) (mRealHeight s) (mDesiredWidth s)
     (mDesiredHeight s) (mDesiredOrientation s) (mBufferProducer s)
     (mBufferConsumer s) (mConsumer s) (mVirtualDisplay s) (mWaiter s)
     (mHaveBuffer s) (mHavePendingFrame s) (mHaveRunningDisplay s) v.

(** ** How a member function ends

    It returns a value, or its thread stays parked in the frame waiter,
    or it dereferences a null [sp<>].  Each outcome carries the calls
    made into the platform so far; the first two also carry the members
    as the function leaves them. *)
Inductive outcome (A : Type) : Type :=
| Returns (a : A) (s : t) (calls : list call)
| Blocks (s : t) (calls : list call)
| Crashes (calls : list call).
Arguments Returns {A}.
Arguments Blocks {A}.
Arguments Crashes {A}.

Definition M (A : Type) : Type := t -> outcome A.

Definition ret {A} (a : A) : M A := fun s => Returns a s [].

Definition bind {A B} (m : M A) (k : A -> M B) : M B :=
  fun s =>
    match m s with
    | Returns a s1 calls1 =>
        match k a s1 with
        | Returns b s2 calls2 => Returns b s2 (calls1 ++ calls2)
        | Blocks s2 calls2 => Blocks s2 (calls1 ++ calls2)
        | Crashes calls2 => Crashes (calls1 ++ calls2)
        end
    | Blocks s1 calls1 => Blocks s1 calls1
    | Crashes calls1 => Crashes calls1
    end.

Notation "x <- m ;; k" := (bind m (fun x => k))
  (at level 61, m at next level, right associativity).
Notation "m ;; k" := (bind m (fun _ => k))
  (at level 61, right associativity).

Definition member {A} (f : t -> A) : M A := fun s => Returns (f s) s [].
Definition assign (f : t -> t) : M unit := fun s => Returns tt (f s) [].
Definition invoke (c : call) : M unit := fun s => Returns tt s [c].
Definition park {A} : M A := fun s => Blocks s [].
Definition null_dereference {A} : M A := fun _ => Crashes [].

(** [p->...] on an [sp<>]. *)
Definition arrow {A : Set} (p : option A) : M A :=
  match p with
  | Some x => ret x
  | None => null_dereference
  end.

(** ** The member functions *)

Import Minicap.

(** A [switch] jumps to the label equal to its operand, if there is
    one, and to [default] otherwise. *)
Definition convertFormat (pf : PixelFormats) (format : Z) : Format :=
  if format =? PIXEL_FORMAT_NONE then FORMAT_NONE
  else if format =? PIXEL_FORMAT_CUSTOM then FORMAT_CUSTOM
  else if format =? PIXEL_FORMAT_TRANSLUCENT then FORMAT_TRANSLUCENT
  else if format =? PIXEL_FORMAT_TRANSPARENT then FORMAT_TRANSPARENT
  else if format =? PIXEL_FORMAT_OPAQUE then FORMAT_OPAQUE
  else if format =? PIXEL_FORMAT_RGBA_8888 then FORMAT_RGBA_8888
  else if format =? PIXEL_FORMAT_RGBX_8888 then FORMAT_RGBX_8888
  else if format =? PIXEL_FORMAT_RGB_888 then FORMAT_RGB_888
  else if format =? PIXEL_FORMAT_RGB_565 then FORMAT_RGB_565
  else if format =? PIXEL_FORMAT_BGRA_8888 then FORMAT_BGRA_8888
  else if format =? PIXEL_FORMAT_RGBA_5551 then FORMAT_RGBA_5551
  else if format =? PIXEL_FORMAT_RGBA_4444 then FORMAT_RGBA_4444
  else FORMAT_UNKNOWN.

(** The conversion of an integer to [bool] at a [return]. *)
Definition bool_of_int (z : Z) : bool := negb (z =? 0).

Definition createVirtualDisplay (pf : PixelFormats) (sf : Composer) : M bool :=
  realWidth <- member mRealWidth ;;
  realHeight <- member mRealHeight ;;
  desiredWidth <- member mDesiredWidth ;;
  desiredHeight <- member mDesiredHeight ;;
  let layerStackRect := Rect_wh realWidth realHeight in
  let visibleRect := Rect_wh desiredWidth desiredHeight in
  invoke new_SurfaceComposerClient ;;
  invoke initCheck ;;
  if negb (initCheck_status sf =? NO_ERROR) then ret false
  else
    invoke (createDisplay "minicap" true) ;;
    assign (set_mVirtualDisplay (createDisplay_token sf)) ;;
    invoke createBufferQueue ;;
    assign (set_mBufferProducer (Some (createBufferQueue_producer sf))) ;;
    assign (set_mBufferConsumer (Some (createBufferQueue_consumer sf))) ;;
    bufferConsumer <- (p <- member mBufferConsumer ;; arrow p) ;;
    invoke (disableAsyncBuffer bufferConsumer) ;;
    invoke (setDefaultBufferSize bufferConsumer desiredWidth desiredHeight) ;;
    invoke (setDefaultBufferFormat bufferConsumer PIXEL_FORMAT_RGBA_8888) ;;
    invoke (new_CpuConsumer bufferConsumer 1 false) ;;
    assign (set_mConsumer (Some (new_CpuConsumer_object sf))) ;;
    consumer <- (p <- member mConsumer ;; arrow p) ;;
    invoke (setName consumer "minicap") ;;
    assign (set_mWaiter (Some FrameWaiter.new)) ;;
    invoke (setFrameAvailableListener consumer) ;;
    invoke openGlobalTransaction ;;
    virtualDisplay <- member mVirtualDisplay ;;
    bufferProducer <- member mBufferProducer ;;
    desiredOrientation <- member mDesiredOrientation ;;
    invoke (setDisplaySurface virtualDisplay bufferProducer) ;;
    invoke (setDisplayProjection virtualDisplay desiredOrientation
              layerStackRect visibleRect) ;;
    invoke (setDisplayLayerStack virtualDisplay 0) ;;
    invoke closeGlobalTransaction ;;
    assign (set_mHaveRunningDisplay true) ;;
    ret (bool_of_int 0).

Definition destroyVirtualDisplay : M unit :=
  virtualDisplay <- member mVirtualDisplay ;;
  invoke (destroyDisplay virtualDisplay) ;;
  haveBuffer <- member mHaveBuffer ;;
  (if haveBuffer then
     consumer <- (p <- member mConsumer ;; arrow p) ;;
     buffer <- member mBuffer ;;
     invoke (unlockBuffer consumer buffer) ;;
     assign (set_mHaveBuffer false)
   else ret tt) ;;
  assign (set_mBufferProducer None) ;;
  assign (set_mBufferConsumer None) ;;
  assign (set_mConsumer None) ;;
  assign (set_mWaiter None) ;;
  assign (set_mVirtualDisplay None) ;;
  assign (set_mHavePendingFrame false) ;;
  assign (set_mHaveRunningDisplay false).

Definition applyConfigChanges (pf : PixelFormats) (sf : Composer) : M bool :=
  haveRunningDisplay <- member mHaveRunningDisplay ;;
  (if haveRunningDisplay then destroyVirtualDisplay else ret tt) ;;
  createVirtualDisplay pf sf.

(** [locked] is what [lockNextBuffer(&mBuffer)] answers: its status and
    [mBuffer] as the call leaves it.  [frame] is the descriptor behind
    the caller's pointer, returned as the function leaves it. *)
Definition consumePendingFrame (pf : PixelFormats)
    (locked : status_t * LockedBuffer) (frame : Frame.t)
  : M (bool * Frame.t) :=
  consumer <- (p <- member mConsumer ;; arrow p) ;;
  invoke (lockNextBuffer consumer) ;;
  assign (set_mBuffer (snd locked)) ;;
  let err := fst locked in
  if negb (err =? NO_ERROR) then ret (false, frame)
  else
    buffer <- member mBuffer ;;
    let bpp := to_uint32 (bytesPerPixel (format buffer)) in
    let frame :=
      Frame.mk (data buffer) (convertFormat pf (format buffer))
        (width buffer) (height buffer) (stride buffer) bpp
        (to_uint32 (to_uint32 (stride buffer * height buffer) * bpp)) in
    assign (set_mHaveBuffer true) ;;
    assign (set_mHavePendingFrame false) ;;
    ret (true, frame).

Definition getCaptureMethod : M CaptureMethod := ret METHOD_VIRTUAL_DISPLAY.

Definition getDisplayId : M Z := member mDisplayId.

Definition hasPendingFrame : M bool := member mHavePendingFrame.

Definition release : M unit := destroyVirtualDisplay.

Definition setDesiredInfo {F} (info : DisplayInfo.t F) : M bool :=
  assign (set_mDesiredWidth (DisplayInfo.width info)) ;;
  assign (set_mDesiredHeight (DisplayInfo.height info)) ;;
  assign (set_mDesiredOrientation (DisplayInfo.orientation info)) ;;
  ret true.

Definition setRealInfo {F} (info : DisplayInfo.t F) : M bool :=
  assign (set_mRealWidth (DisplayInfo.width info)) ;;
  assign (set_mRealHeight (DisplayInfo.height info)) ;;
  ret true.

Definition waitForFrame : M bool :=
  haveBuffer <- member mHaveBuffer ;;
  (if haveBuffer then
     consumer <- (p <- member mConsumer ;; arrow p) ;;
     buffer <- member mBuffer ;;
     invoke (unlockBuffer consumer buffer) ;;
     assign (set_mHaveBuffer false)
   else ret tt) ;;
  waiter <- (p <- member mWaiter ;; arrow p) ;;
  match FrameWaiter.waitForFrame waiter with
  | None => park
  | Some waiter' =>
      assign (set_mWaiter (Some waiter')) ;;
      assign (set_mHavePendingFrame true) ;;
      ret true
  end.

(** The compositor's thread delivers a frame: the CPU consumer calls the
    listener it was given, which is the object behind [mWaiter]. *)
Definition frameAvailable (s : t) : t :=
  set_mWaiter (option_map FrameWaiter.onFrameAvailable (mWaiter s)) s.

End MinicapImpl.

(** * The display query *)

(** What SurfaceComposerClient answers: the token of a built-in display
    (null for an id it does not know) and, for a token, the status of
    [getDisplayInfo] with [dinfo] as the call leaves it. *)
Record SurfaceComposerClient (F : Type) : Type := mkSurfaceComposerClient {
  getBuiltInDisplay : Z -> sp;
  getDisplayInfo : sp -> status_t * android.DisplayInfo F
}.
Arguments getBuiltInDisplay {F}.
Arguments getDisplayInfo {F}.

Definition minicap_try_get_display_info {F} `{FloatOps F}
    (sc : SurfaceComposerClient F) (displayId : Z)
    (info : Minicap.DisplayInfo.t F)
  : bool * Minicap.DisplayInfo.t F :=
  let dpy := getBuiltInDisplay sc displayId in
  let (err, dinfo) := getDisplayInfo sc dpy in
  if negb (err =? NO_ERROR) then (false, info)
  else
    (true,
     Minicap.DisplayInfo.mk
       (android.w dinfo) (android.h dinfo) (android.orientation dinfo)
       (android.fps dinfo) (android.density dinfo)
       (android.xdpi dinfo) (android.ydpi dinfo) (android.secure dinfo)
       (sqrt (fadd
                (pow (fdiv (of_uint32 (android.w dinfo)) (android.xdpi dinfo))
                     (of_int 2))
                (pow (fdiv (of_uint32 (android.h dinfo)) (android.ydpi dinfo))
                     (of_int 2))))).

Definition minicap_create (displayId : Z) (uninitialised : android.LockedBuffer)
  : MinicapImpl.t :=
  MinicapImpl.new displayId uninitialised.

(** * Reading outcomes, and inputs to run the model on *)

(** The calls and the members an outcome carries. *)
Definition calls_of {A} (o : MinicapImpl.outcome A) : list call :=
  match o with
  | MinicapImpl.Returns _ _ calls => calls
  | MinicapImpl.Blocks _ calls => calls
  | MinicapImpl.Crashes calls => calls
  end.

Definition members_of {A} (o : MinicapImpl.outcome A)
  : option MinicapImpl.t :=
  match o with
  | MinicapImpl.Returns _ s _ => Some s
  | MinicapImpl.Blocks s _ => Some s
  | MinicapImpl.Crashes _ => None
  end.

(** The buffer a session holds, as the argument of the [unlockBuffer]
    that gives it back: nothing when no buffer is held. *)
Definition unlock_held (consumer : handle) (s : MinicapImpl.t) : list call :=
  if MinicapImpl.mHaveBuffer s
  then [unlockBuffer consumer (MinicapImpl.mBuffer s)]
  else [].

(** A stand-in for [float] that keeps every operation as written. *)
Inductive symbolic : Set :=
| lit (z : Z)
| sym_of_uint32 (z : Z)
| sym_of_int (z : Z)
| sym_div (a b : symbolic)
| sym_add (a b : symbolic)
| sym_pow (a b : symbolic)
| sym_sqrt (a : symbolic).

#[export] Instance symbolic_ops : FloatOps symbolic := {|
  of_uint32 := sym_of_uint32;
  of_int := sym_of_int;
  fdiv := sym_div;
  fadd := sym_add;
  pow := sym_pow;
  sqrt := sym_sqrt
|}.

(** Platform answers in which every call succeeds. *)
Definition composer_ok : Composer :=
  mkComposer NO_ERROR (Some 1%positive) 2%positive 3%positive 4%positive.

Definition zero_buffer : android.LockedBuffer :=
  android.mkLockedBuffer 0 0 0 0 0.

Definition zero_frame : Minicap.Frame.t :=
  Minicap.Frame.mk 0 Minicap.FORMAT_NONE 0 0 0 0 0.

Definition real_1080_1920 : Minicap.DisplayInfo.t symbolic :=
  Minicap.DisplayInfo.mk 1080 1920 0 (lit 60) (lit 3) (lit 480) (lit 480)
    false (lit 5).

Definition desired_540_960 : Minicap.DisplayInfo.t symbolic :=
  Minicap.DisplayInfo.mk 540 960 1 (lit 60) (lit 3) (lit 480) (lit 480)
    false (lit 5).

(** The session that [setRealInfo], [setDesiredInfo] and
    [applyConfigChanges] build from these inputs. *)
Definition running_session : MinicapImpl.t :=
  MinicapImpl.mk 0 1080 1920 540 960 1 (Some 2%positive) (Some 3%positive)
    (Some 4%positive) (Some 1%positive) (Some FrameWaiter.new)
    false false true zero_buffer.

(** A 540 x 960 RGBA_8888 buffer whose rows are padded to 544 pixels. *)
Definition buffer_540_960 : android.LockedBuffer :=
  android.mkLockedBuffer 4096 540 960 1 544.

(** A running session that holds that buffer from a prior read, with
    two frames pending. *)
Definition holding_session : MinicapImpl.t :=
  MinicapImpl.mk 0 1080 1920 540 960 1 (Some 2%positive) (Some 3%positive)
    (Some 4%positive) (Some 1%positive) (Some (FrameWaiter.mk 2))
    true false true buffer_540_960.

(** A buffer of 65536 rows of 65536 RGBA_8888 pixels. *)
Definition buffer_65536 : android.LockedBuffer :=
  android.mkLockedBuffer 4096 65536 65536 1 65536.

(** A compositor with the built-in display 0 only; the query on the
    null token answers [BAD_VALUE] (-22). *)
Definition one_display : SurfaceComposerClient symbolic :=
  mkSurfaceComposerClient symbolic
    (fun displayId => if displayId =? 0 then Some 1%positive else None)
    (fun dpy =>
       match dpy with
       | Some _ =>
           (NO_ERROR,
            android.mkDisplayInfo 1080 1920 (lit 480) (lit 480) (lit 60)
              (lit 3) 0 false)
       | None =>
           (-22,
            android.mkDisplayInfo 0 0 (lit 0) (lit 0) (lit 0) (lit 0) 0 false)
       end).

(** * Status names *)

(** A [switch] over integer labels, as a table in the order of the
    source: the operand goes to the case whose label it equals, and to
    [default] when no label does. *)
Fixpoint switch {A : Type} (cases : list (Z * A)) (default : A) (x : Z) : A :=
  match cases with
  | [] => default
  | (label, a) :: rest => if x =? label then a else switch rest default x
  end.

Module Errors.

(** The status codes of [utils/Errors.h] besides [NO_ERROR], which the
    repository takes from the platform headers. *)
Class StatusCodes : Set := {
  UNKNOWN_ERROR : Z;
  NO_MEMORY : Z;
  INVALID_OPERATION : Z;
  BAD_VALUE : Z;
  BAD_TYPE : Z;
  NAME_NOT_FOUND : Z;
  PERMISSION_DENIED : Z;
  NO_INIT : Z;
  ALREADY_EXISTS : Z;
  DEAD_OBJECT : Z;
  FAILED_TRANSACTION : Z;
  BAD_INDEX : Z;
  NOT_ENOUGH_DATA : Z;
  WOULD_BLOCK : Z;
  TIMED_OUT : Z;
  UNKNOWN_TRANSACTION : Z;
  FDS_NOT_ALLOWED : Z
}.

(** An instance to run the model on: the values on Linux, where most
    codes are negated [errno] numbers and four start at [INT32_MIN]. *)
Definition linux : StatusCodes := {|
  UNKNOWN_ERROR := -2147483648;
  NO_MEMORY := -12;
  INVALID_OPERATION := -38;
  BAD_VALUE := -22;
  BAD_TYPE := -2147483647;
  NAME_NOT_FOUND := -2;
  PERMISSION_DENIED := -1;
  NO_INIT := -19;
  ALREADY_EXISTS := -17;
  DEAD_OBJECT := -32;
  FAILED_TRANSACTION := -2147483646;
  BAD_INDEX := -75;
  NOT_ENOUGH_DATA := -61;
  WOULD_BLOCK := -11;
  TIMED_OUT := -110;
  UNKNOWN_TRANSACTION := -74;
  FDS_NOT_ALLOWED := -2147483641
|}.

End Errors.

(** The cases of [error_name], in the order of the source. *)
Definition error_name_cases (codes : Errors.StatusCodes)
  : list (Z * string) :=
  [ (NO_ERROR, "NO_ERROR");
    (Errors.UNKNOWN_ERROR, "UNKNOWN_ERROR");
    (Errors.NO_MEMORY, "NO_MEMORY");
    (Errors.INVALID_OPERATION, "INVALID_OPERATION");
    (Errors.BAD_VALUE, "BAD_VALUE");
    (Errors.BAD_TYPE, "BAD_TYPE");
    (Errors.NAME_NOT_FOUND, "NAME_NOT_FOUND");
    (Errors.PERMISSION_DENIED, "PERMISSION_DENIED");
    (Errors.NO_INIT, "NO_INIT");
    (Errors.ALREADY_EXISTS, "ALREADY_EXISTS");
    (Errors.DEAD_OBJECT, "DEAD_OBJECT");
    (Errors.FAILED_TRANSACTION, "FAILED_TRANSACTION");
    (Errors.BAD_INDEX, "BAD_INDEX");
    (Errors.NOT_ENOUGH_DATA, "NOT_ENOUGH_DATA");
    (Errors.WOULD_BLOCK, "WOULD_BLOCK");
    (Errors.TIMED_OUT, "TIMED_OUT");
    (Errors.UNKNOWN_TRANSACTION, "UNKNOWN_TRANSACTION");
    (Errors.FDS_NOT_ALLOWED, "FDS_NOT_ALLOWED") ]%string.

Definition error_name (codes : Errors.StatusCodes) (err : Z) : string :=
  switch (error_name_cases codes) "UNMAPPED_ERROR"%string err.

(** The case labels of [error_name]. *)
Definition error_labels (codes : Errors.StatusCodes) : list Z :=
  map fst (error_name_cases codes).

(** The cases of [convertFormat] as a table. *)
Definition convertFormat_cases (pf : android.PixelFormats)
  : list (Z * Minicap.Format) :=
  [ (android.PIXEL_FORMAT_NONE, Minicap.FORMAT_NONE);
    (android.PIXEL_FORMAT_CUSTOM, Minicap.FORMAT_CUSTOM);
    (android.PIXEL_FORMAT_TRANSLUCENT, Minicap.FORMAT_TRANSLUCENT);
    (android.PIXEL_FORMAT_TRANSPARENT, Minicap.FORMAT_TRANSPARENT);
    (android.PIXEL_FORMAT_OPAQUE, Minicap.FORMAT_OPAQUE);
    (android.PIXEL_FORMAT_RGBA_8888, Minicap.FORMAT_RGBA_8888);
    (android.PIXEL_FORMAT_RGBX_8888, Minicap.FORMAT_RGBX_8888);
    (android.PIXEL_FORMAT_RGB_888, Minicap.FORMAT_RGB_888);
    (android.PIXEL_FORMAT_RGB_565, Minicap.FORMAT_RGB_565);
    (android.PIXEL_FORMAT_BGRA_8888, Minicap.FORMAT_BGRA_8888);
    (android.PIXEL_FORMAT_RGBA_5551, Minicap.FORMAT_RGBA_5551);
    (android.PIXEL_FORMAT_RGBA_4444, Minicap.FORMAT_RGBA_4444) ].

(** * The session as its callers drive it *)

(** The destructor: [~MinicapImpl() { release(); }]. *)
Definition destructor : MinicapImpl.M unit := MinicapImpl.release.

(** [delete mc] runs the destructor. *)
Definition minicap_free : MinicapImpl.M unit := destructor.

(** One step of a session's life: a call of a member function by the
    consumer thread, or the delivery of a frame by the compositor's
    thread. *)
Inductive request (F : Type) : Type :=
| do_applyConfigChanges (sf : Composer)
| do_consumePendingFrame (locked : status_t * android.LockedBuffer)
    (frame : Minicap.Frame.t)
| do_getCaptureMethod
| do_getDisplayId
| do_hasPendingFrame
| do_release
| do_setDesiredInfo (info : Minicap.DisplayInfo.t F)
| do_setRealInfo (info : Minicap.DisplayInfo.t F)
| do_waitForFrame
| do_frameAvailable.
Arguments do_applyConfigChanges {F}.
Arguments do_consumePendingFrame {F}.
Arguments do_getCaptureMethod {F}.
Arguments do_getDisplayId {F}.
Arguments do_hasPendingFrame {F}.
Arguments do_release {F}.
Arguments do_setDesiredInfo {F}.
Arguments do_setRealInfo {F}.
Arguments do_waitForFrame {F}.
Arguments do_frameAvailable {F}.

(** A call whose result the caller drops. *)
Definition discard {A} (m : MinicapImpl.M A) : MinicapImpl.M unit :=
  fun s =>
    match m s with
    | MinicapImpl.Returns _ s' calls => MinicapImpl.Returns tt s' calls
    | MinicapImpl.Blocks s' calls => MinicapImpl.Blocks s' calls
    | MinicapImpl.Crashes calls => MinicapImpl.Crashes calls
    end.

Definition perform {F} (pf : android.PixelFormats) (r : request F)
  : MinicapImpl.M unit :=
  match r with
  | do_applyConfigChanges sf => discard (MinicapImpl.applyConfigChanges pf sf)
  | do_consumePendingFrame locked frame =>
      discard (MinicapImpl.consumePendingFrame pf locked frame)
  | do_getCaptureMethod => discard MinicapImpl.getCaptureMethod
  | do_getDisplayId => discard MinicapImpl.getDisplayId
  | do_hasPendingFrame => discard MinicapImpl.hasPendingFrame
  | do_release => MinicapImpl.release
  | do_setDesiredInfo info => discard (MinicapImpl.setDesiredInfo info)
  | do_setRealInfo info => discard (MinicapImpl.setRealInfo info)
  | do_waitForFrame => discard MinicapImpl.waitForFrame
  | do_frameAvailable => MinicapImpl.assign MinicapImpl.frameAvailable
  end.

(** A history of steps, one after the other; it stops where a step
    parks or dereferences null. *)
Fixpoint run_requests {F} (pf : android.PixelFormats) (rs : list (request F))
  : MinicapImpl.M unit :=
  match rs with
  | [] => MinicapImpl.ret tt
  | r :: rest => MinicapImpl.bind (perform pf r) (fun _ => run_requests pf rest)
  end.

(** The sessions a history can lead to from [s0], counting the members
    a parked call leaves behind. *)
Inductive reachable_from {F} (pf : android.PixelFormats) (s0 : MinicapImpl.t)
  : MinicapImpl.t -> Prop :=
| reach_start : reachable_from pf s0 s0
| reach_step (r : request F) (s s' : MinicapImpl.t) :
    reachable_from pf s0 s ->
    members_of (perform pf r s) = Some s' ->
    reachable_from pf s0 s'.

(** The flag [mHaveRunningDisplay] and the pointers agree: a running
    session has its buffer queue, its reader and its listener; a session
    that is not running has no pointer left and neither holds a buffer
    nor has a frame pending. *)
Definition consistent (s : MinicapImpl.t) : Prop :=
  if MinicapImpl.mHaveRunningDisplay s
  then MinicapImpl.mBufferProducer s <> None /\
       MinicapImpl.mBufferConsumer s <> None /\
       MinicapImpl.mConsumer s <> None /\
       MinicapImpl.mWaiter s <> None
  else MinicapImpl.mBufferProducer s = None /\
       MinicapImpl.mBufferConsumer s = None /\
       MinicapImpl.mConsumer s = None /\
       MinicapImpl.mWaiter s = None /\
       MinicapImpl.mVirtualDisplay s = None /\
       MinicapImpl.mHaveBuffer s = false /\
       MinicapImpl.mHavePendingFrame s = false.

(** The buffers given back by the [unlockBuffer] calls of a trace, and
    the buffers the successful [lockNextBuffer] calls of a history hand
    out, both in order. *)
Fixpoint unlocked_buffers (calls : list call) : list android.LockedBuffer :=
  match calls with
  | [] => []
  | unlockBuffer _ buffer :: rest => buffer :: unlocked_buffers rest
  | _ :: rest => unlocked_buffers rest
  end.

Fixpoint locked_buffers {F} (rs : list (request F))
  : list android.LockedBuffer :=
  match rs with
  | [] => []
  | do_consumePendingFrame locked _ :: rest =>
      if fst locked =? NO_ERROR
      then snd locked :: locked_buffers rest
      else locked_buffers rest
  | _ :: rest => locked_buffers rest
  end.

Definition held_buffer (s : MinicapImpl.t) : list android.LockedBuffer :=
  if MinicapImpl.mHaveBuffer s then [MinicapImpl.mBuffer s] else [].

(** The capture loop's discipline: no [consumePendingFrame] while a
    buffer is held, that is, a [waitForFrame] (or a teardown) lies
    between any successful read and the next read.  [held] says whether
    a buffer is held when the history starts. *)
Fixpoint reads_follow_waits {F} (held : bool) (rs : list (request F)) : bool :=
  match rs with
  | [] => true
  | do_consumePendingFrame locked _ :: rest =>
      negb held && reads_follow_waits (fst locked =? NO_ERROR) rest
  | do_waitForFrame :: rest => reads_follow_waits false rest
  | do_release :: rest => reads_follow_waits false rest
  | do_applyConfigChanges _ :: rest => reads_follow_waits false rest
  | _ :: rest => reads_follow_waits held rest
  end.

(** A platform whose [initCheck] answers [NO_INIT] (-19). *)
Definition composer_refusing : Composer :=
  mkComposer (-19) None 2%positive 3%positive 4%positive.

(** The running session with one frame pending in the waiter. *)
Definition one_pending_session : MinicapImpl.t :=
  MinicapImpl.mk 0 1080 1920 540 960 1 (Some 2%positive) (Some 3%positive)
    (Some 4%positive) (Some 1%positive) (Some (FrameWaiter.mk 1))
    false false true zero_buffer.

(** Two rounds of the capture loop: a frame arrives, the consumer waits
    for it and reads it. *)
Definition two_rounds : list (request symbolic) :=
  [ do_frameAvailable; do_waitForFrame;
    do_consumePendingFrame (NO_ERROR, buffer_540_960) zero_frame;
    do_frameAvailable; do_waitForFrame;
    do_consumePendingFrame (NO_ERROR, buffer_65536) zero_frame ].

(** * Properties *)

(** ** Machine integers *)

Lemma to_int32_id z : is_int32 z -> to_int32 z = z.
Proof.
  unfold is_int32, INT_MIN, INT_MAX, to_int32. intros H.
  rewrite Z.mod_small; lia.
Qed.

Lemma to_uint32_id z : is_uint32 z -> to_uint32 z = z.
Proof. unfold is_uint32, to_uint32. intros H. now apply Z.mod_small. Qed.

Lemma to_uint32_range z : is_uint32 (to_uint32 z).
Proof. unfold is_uint32, to_uint32. apply Z.mod_pos_bound. lia. Qed.

Lemma to_uint32_mul_l a b : to_uint32 (to_uint32 a * b) = to_uint32 (a * b).
Proof. unfold to_uint32. now rewrite Z.mul_mod_idemp_l by lia. Qed.

(** ** The frame waiter *)

Section FrameWaiterFacts.

Import FrameWaiter.

Lemma signals_nonneg ops : 0 <= signals ops.
Proof. induction ops as [|[] rest IH]; cbn [signals]; lia. Qed.

Lemma waits_nonneg ops : 0 <= waits ops.
Proof. induction ops as [|[] rest IH]; cbn [waits]; lia. Qed.

Lemma onFrameAvailable_below_max w :
  0 <= mPendingFrames w < INT_MAX ->
  mPendingFrames (onFrameAvailable w) = mPendingFrames w + 1.
Proof.
  intros H. unfold onFrameAvailable; simpl.
  apply to_int32_id. unfold is_int32, INT_MIN, INT_MAX in *. lia.
Qed.

Lemma waitForFrame_parks w :
  waitForFrame w = None <-> mPendingFrames w = 0.
Proof.
  unfold waitForFrame. destruct (Z.eqb_spec (mPendingFrames w) 0); split;
    intros; congruence.
Qed.

Lemma waitForFrame_takes_one w w' :
  0 <= mPendingFrames w <= INT_MAX ->
  waitForFrame w = Some w' ->
  0 < mPendingFrames w /\ mPendingFrames w' = mPendingFrames w - 1.
Proof.
  unfold waitForFrame. intros Hr H.
  destruct (Z.eqb_spec (mPendingFrames w) 0) as [|Hne]; [discriminate|].
  injection H as <-. simpl. split; [lia|].
  apply to_int32_id. unfold is_int32, INT_MIN, INT_MAX in *. lia.
Qed.

(** A history of completed calls leaves the counter at the number of
    signals in hand, between 0 and the largest [int]. *)
Lemma run_counts ops : forall w w',
  0 <= mPendingFrames w <= INT_MAX ->
  below_int_max (mPendingFrames w) ops = true ->
  run ops w = Some w' ->
  0 <= mPendingFrames w' <= INT_MAX /\
  mPendingFrames w' = mPendingFrames w + signals ops - waits ops.
Proof.
  induction ops as [|[] rest IH];
    cbn [run signals waits below_int_max]; intros w w' H0 Hfit Hrun.
  - injection Hrun as <-. lia.
  - apply andb_prop in Hfit as [Hlt Hfit]. apply Z.ltb_lt in Hlt.
    assert (Hs : mPendingFrames (onFrameAvailable w) = mPendingFrames w + 1)
      by (apply onFrameAvailable_below_max; lia).
    apply IH in Hrun; rewrite ?Hs; [lia | lia | assumption].
  - destruct (waitForFrame w) as [w1|] eqn:Hw; [|discriminate].
    apply waitForFrame_takes_one in Hw as [Hpos Hd]; [|lia].
    apply IH in Hrun; rewrite ?Hd; [lia | lia | assumption].
Qed.

(** When every wait is covered by an earlier signal, no wait parks. *)
Lemma run_covered ops : forall w,
  0 <= mPendingFrames w <= INT_MAX ->
  below_int_max (mPendingFrames w) ops = true ->
  waits_covered (mPendingFrames w) ops = true ->
  exists w', run ops w = Some w'.
Proof.
  induction ops as [|[] rest IH];
    cbn [run below_int_max waits_covered]; intros w H0 Hfit Hc.
  - now exists w.
  - apply andb_prop in Hfit as [Hlt Hfit]. apply Z.ltb_lt in Hlt.
    apply IH; rewrite onFrameAvailable_below_max; solve [lia | assumption].
  - apply andb_prop in Hc as [Hpos Hc]. apply Z.ltb_lt in Hpos.
    destruct (waitForFrame w) as [w1|] eqn:Hw.
    + apply waitForFrame_takes_one in Hw as [_ Hd]; [|lia].
      apply IH; rewrite Hd; solve [lia | assumption].
    + apply waitForFrame_parks in Hw. lia.
Qed.

Lemma waits_covered_waits m : forall p,
  Z.of_nat m <= p -> waits_covered p (repeat Wait m) = true.
Proof.
  induction m as [|m IH]; cbn [repeat waits_covered]; intros p Hp;
    [reflexivity|].
  apply andb_true_intro. split; [apply Z.ltb_lt; lia | apply IH; lia].
Qed.

Lemma waits_covered_burst k m : forall p,
  Z.of_nat m <= p + Z.of_nat k ->
  waits_covered p (repeat Signal k ++ repeat Wait m) = true.
Proof.
  induction k as [|k IH]; cbn [repeat app waits_covered]; intros p Hp.
  - apply waits_covered_waits. lia.
  - apply IH. lia.
Qed.

Lemma below_int_max_waits m : forall p,
  below_int_max p (repeat Wait m) = true.
Proof.
  induction m as [|m IH]; cbn [repeat below_int_max]; intros p;
    [reflexivity | apply IH].
Qed.

Lemma below_int_max_burst k m : forall p,
  p + Z.of_nat k <= INT_MAX ->
  below_int_max p (repeat Signal k ++ repeat Wait m) = true.
Proof.
  induction k as [|k IH]; cbn [repeat app below_int_max]; intros p Hp.
  - apply below_int_max_waits.
  - apply andb_true_intro. split; [apply Z.ltb_lt; lia | apply IH; lia].
Qed.

Lemma signals_burst k m :
  signals (repeat Signal k ++ repeat Wait m) = Z.of_nat k.
Proof.
  induction k as [|k IH]; cbn [repeat app signals].
  - induction m as [|m IHm]; cbn [repeat signals]; [reflexivity | assumption].
  - rewrite IH. lia.
Qed.

Lemma waits_burst k m :
  waits (repeat Signal k ++ repeat Wait m) = Z.of_nat m.
Proof.
  induction k as [|k IH]; cbn [repeat app waits].
  - induction m as [|m IHm]; cbn [repeat waits]; [reflexivity | lia].
  - assumption.
Qed.

(** Signals that find no wait add up, below the largest [int]. *)
Lemma iter_onFrameAvailable (n : N) :
  Z.of_N n <= INT_MAX ->
  N.iter n onFrameAvailable new = mk (Z.of_N n).
Proof.
  induction n as [|n IH] using N.peano_ind; intros Hn; [reflexivity|].
  rewrite N.iter_succ, IH by lia.
  unfold onFrameAvailable; simpl mPendingFrames.
  rewrite to_int32_id; [f_equal; lia|].
  unfold is_int32, INT_MIN, INT_MAX in *. lia.
Qed.

(** C2, as stated, fails at the width of the counter: 2^31 signals
    with no wait in between leave [mPendingFrames] at -2^31, a negative
    value, and there [waitForFrame] returns instead of parking. *)
Lemma C2_counter_negative_after_2_31_signals :
  mPendingFrames (N.iter 2147483648 onFrameAvailable new) = -2147483648 /\
  waitForFrame (N.iter 2147483648 onFrameAvailable new) <> None.
Proof.
  assert (H : N.iter 2147483648 onFrameAvailable new = mk (-2147483648)).
  { change 2147483648%N with (N.succ 2147483647).
    rewrite N.iter_succ, iter_onFrameAvailable by (vm_compute; discriminate).
    reflexivity. }
  rewrite H. split; [reflexivity | discriminate].
Qed.

(** C2 (amended).  Take any history of completed calls on a fresh
    waiter in which no signal arrives while [INT_MAX] = 2^31 - 1 signals
    are pending.  The counter is never negative and equals signals minus
    waits; a wait parks exactly when the counter is 0, and a wait that
    returns found it positive and took exactly one from it.  If no wait
    is called before a signal it can consume has arrived, every wait
    returns, and with as many waits as signals the counter ends at 0; N
    signals followed by N waits are such a history. *)
Theorem C2_pending_counter (ops : list op) :
  below_int_max 0 ops = true ->
  (forall w, run ops new = Some w ->
     0 <= mPendingFrames w /\
     mPendingFrames w = signals ops - waits ops /\
     (waitForFrame w = None <-> mPendingFrames w = 0) /\
     (forall w', waitForFrame w = Some w' ->
        0 < mPendingFrames w /\
        mPendingFrames w' = mPendingFrames w - 1)) /\
  (waits_covered 0 ops = true ->
     exists w, run ops new = Some w /\
               (waits ops = signals ops -> mPendingFrames w = 0)) /\
  (forall n, ops = repeat Signal n ++ repeat Wait n ->
     run ops new = Some new).
Proof.
  intros Hfit.
  assert (H00 : 0 <= mPendingFrames new <= INT_MAX)
    by (unfold INT_MAX; simpl; lia).
  assert (Hinv : forall w, run ops new = Some w ->
            0 <= mPendingFrames w <= INT_MAX /\
            mPendingFrames w = signals ops - waits ops).
  { intros w Hrun. apply run_counts in Hrun; simpl in *; assumption. }
  assert (Hcov : waits_covered 0 ops = true ->
            exists w, run ops new = Some w /\
                      (waits ops = signals ops -> mPendingFrames w = 0)).
  { intros Hc. destruct (run_covered ops new) as [w Hw]; try assumption.
    exists w. split; [assumption|]. apply Hinv in Hw. lia. }
  split; [|split].
  - intros w Hrun. destruct (Hinv w Hrun) as [H0 Heq].
    repeat split; try assumption; try lia.
    + apply waitForFrame_parks.
    + apply waitForFrame_parks.
    + apply (waitForFrame_takes_one w w'); assumption.
    + apply (waitForFrame_takes_one w w'); assumption.
  - exact Hcov.
  - intros n ->.
    destruct Hcov as [w [Hrun Hz]].
    + apply waits_covered_burst. lia.
    + rewrite Hrun. f_equal. destruct w as [p]. simpl in Hz.
      rewrite Hz; [reflexivity|]. now rewrite signals_burst, waits_burst.
Qed.

(** Three signals ahead of the consumer, then three waits. *)
Lemma C2_pending_counter_burst_of_three :
  below_int_max 0 [Signal; Signal; Signal; Wait; Wait; Wait] = true /\
  run [Signal; Signal; Signal; Wait; Wait; Wait] new = Some new.
Proof.
  split; [reflexivity|].
  exact (proj2 (proj2 (C2_pending_counter
                         [Signal; Signal; Signal; Wait; Wait; Wait] eq_refl))
           3%nat eq_refl).
Defined.

End FrameWaiterFacts.

(** ** The session *)

Section MinicapImplFacts.

Import android Minicap MinicapImpl.

Ltac step_members :=
  unfold applyConfigChanges, createVirtualDisplay, destroyVirtualDisplay,
    release, consumePendingFrame, waitForFrame, setRealInfo, setDesiredInfo,
    hasPendingFrame, bind, member, assign, invoke, arrow, ret, park,
    null_dereference, unlock_held;
  cbn [mDisplayId mRealWidth mRealHeight mDesiredWidth mDesiredHeight
       mDesiredOrientation mBufferProducer mBufferConsumer mConsumer
       mVirtualDisplay mWaiter mHaveBuffer mHavePendingFrame
       mHaveRunningDisplay mBuffer
       set_mRealWidth set_mRealHeight set_mDesiredWidth set_mDesiredHeight
       set_mDesiredOrientation set_mBufferProducer set_mBufferConsumer
       set_mConsumer set_mVirtualDisplay set_mWaiter set_mHaveBuffer
       set_mHavePendingFrame set_mHaveRunningDisplay set_mBuffer
       app fst snd].

(** Whatever the platform answers, [createVirtualDisplay] does not
    return [true]: the failure path returns [false] and the other path
    ends in [return 0]. *)
Lemma createVirtualDisplay_not_true pf sf s s' calls :
  createVirtualDisplay pf sf s <> Returns true s' calls.
Proof.
  destruct s. step_members.
  destruct (initCheck_status sf =? NO_ERROR); cbn; discriminate.
Qed.

(** C1: the code at the scenario of the specification.  [initCheck]
    succeeds, the virtual display is created and published and the
    session is marked running, and [applyConfigChanges] returns [false]:
    [createVirtualDisplay] ends in [return 0]. *)
Theorem C1_applyConfigChanges_returns_false_on_success :
  exists calls,
    (setRealInfo real_1080_1920 ;;
     setDesiredInfo desired_540_960 ;;
     applyConfigChanges api22 composer_ok) (MinicapImpl.new 0 zero_buffer)
    = Returns false running_session calls /\
    mHaveRunningDisplay running_session = true /\
    In closeGlobalTransaction calls.
Proof.
  eexists. split; [vm_compute; reflexivity|].
  split; [reflexivity|]. simpl. tauto.
Qed.

(** ** The two setters *)

(** C10: [setRealInfo] assigns [mRealWidth] and [mRealHeight] from the
    width and the height of its argument and nothing else, whatever the
    other seven fields hold; [setDesiredInfo] assigns [mDesiredWidth],
    [mDesiredHeight] and [mDesiredOrientation] and nothing else; both
    return [true] and call nothing.  The members after the call are a
    function of the stored fields alone, so no later operation can
    tell two arguments that agree on them apart. *)
Theorem C10_setters_store_geometry_only
    (F : Type) (width height orientation : Z) (fps density xdpi ydpi : F)
    (secure : bool) (size : F) (s : MinicapImpl.t) :
  let info :=
    DisplayInfo.mk width height orientation fps density xdpi ydpi secure size
  in
  setRealInfo info s
  = Returns true
      (MinicapImpl.mk (mDisplayId s) width height (mDesiredWidth s)
         (mDesiredHeight s) (mDesiredOrientation s) (mBufferProducer s)
         (mBufferConsumer s) (mConsumer s) (mVirtualDisplay s) (mWaiter s)
         (mHaveBuffer s) (mHavePendingFrame s) (mHaveRunningDisplay s)
         (mBuffer s)) [] /\
  setDesiredInfo info s
  = Returns true
      (MinicapImpl.mk (mDisplayId s) (mRealWidth s) (mRealHeight s) width
         height orientation (mBufferProducer s)
         (mBufferConsumer s) (mConsumer s) (mVirtualDisplay s) (mWaiter s)
         (mHaveBuffer s) (mHavePendingFrame s) (mHaveRunningDisplay s)
         (mBuffer s)) [] /\
  (forall (A : Type) (later : M A) (orientation' : Z)
          (fps' density' xdpi' ydpi' size' : F) (secure' : bool),
     (setRealInfo info ;; later) s
     = (setRealInfo (DisplayInfo.mk width height orientation' fps' density'
                       xdpi' ydpi' secure' size') ;; later) s) /\
  (forall (A : Type) (later : M A)
          (fps' density' xdpi' ydpi' size' : F) (secure' : bool),
     (setDesiredInfo info ;; later) s
     = (setDesiredInfo (DisplayInfo.mk width height orientation fps' density'
                          xdpi' ydpi' secure' size') ;; later) s).
Proof.
  intros info. destruct s. repeat split.
Qed.

(** ** Reading a frame *)

(** C5: when [lockNextBuffer] answers a status other than [NO_ERROR],
    [consumePendingFrame] returns [false] after that single call (no
    second attempt), the caller's descriptor is as it was, and so is
    every member but [mBuffer], which holds what the failed call left
    in it: [mHaveBuffer] and [mHavePendingFrame] keep their values. *)
Theorem C5_lock_failure_leaves_frame_and_flags
    (pf : PixelFormats) (err : status_t) (left_by_lock : LockedBuffer)
    (frame : Frame.t) (s : MinicapImpl.t) (consumer : handle) :
  mConsumer s = Some consumer ->
  err <> NO_ERROR ->
  consumePendingFrame pf (err, left_by_lock) frame s
  = Returns (false, frame) (set_mBuffer left_by_lock s)
      [lockNextBuffer consumer] /\
  mHaveBuffer (set_mBuffer left_by_lock s) = mHaveBuffer s /\
  mHavePendingFrame (set_mBuffer left_by_lock s) = mHavePendingFrame s /\
  mHaveRunningDisplay (set_mBuffer left_by_lock s) = mHaveRunningDisplay s /\
  mWaiter (set_mBuffer left_by_lock s) = mWaiter s /\
  mConsumer (set_mBuffer left_by_lock s) = mConsumer s.
Proof.
  intros Hc Herr. destruct s. cbn in Hc. subst. step_members.
  destruct (Z.eqb_spec err NO_ERROR) as [|_]; [contradiction|].
  cbn. repeat split.
Qed.

Lemma C5_lock_failure_on_running_session :
  consumePendingFrame api22 (-22, zero_buffer) zero_frame running_session
  = Returns (false, zero_frame) running_session [lockNextBuffer 4%positive].
Proof.
  exact (proj1 (C5_lock_failure_leaves_frame_and_flags api22 (-22)
                  zero_buffer zero_frame running_session 4%positive eq_refl
                  ltac:(discriminate))).
Defined.

(** C6: when [lockNextBuffer] answers [NO_ERROR], [consumePendingFrame]
    returns [true]; each of the seven fields of the descriptor is taken
    from the locked buffer (none keeps what the caller passed in),
    [mHaveBuffer] is [true] and [mHavePendingFrame] is [false]. *)
Theorem C6_lock_success_fills_frame
    (pf : PixelFormats) (buffer : LockedBuffer) (frame : Frame.t)
    (s : MinicapImpl.t) (consumer : handle) :
  mConsumer s = Some consumer ->
  exists frame' s',
    consumePendingFrame pf (NO_ERROR, buffer) frame s
    = Returns (true, frame') s' [lockNextBuffer consumer] /\
    Frame.data frame' = data buffer /\
    Frame.format frame' = convertFormat pf (format buffer) /\
    Frame.width frame' = width buffer /\
    Frame.height frame' = height buffer /\
    Frame.stride frame' = stride buffer /\
    Frame.bpp frame' = to_uint32 (bytesPerPixel (format buffer)) /\
    Frame.size frame'
    = to_uint32 (to_uint32 (stride buffer * height buffer)
                 * Frame.bpp frame') /\
    s' = set_mHavePendingFrame false (set_mHaveBuffer true
           (set_mBuffer buffer s)) /\
    mBuffer s' = buffer /\
    mHaveBuffer s' = true /\
    mHavePendingFrame s' = false.
Proof.
  intros Hc. destruct s. cbn in Hc. subst. step_members.
  eexists. eexists. split; [reflexivity|]. cbn. repeat split.
Qed.

Lemma C6_lock_success_on_running_session :
  exists frame' s',
    consumePendingFrame api22 (NO_ERROR, buffer_540_960) zero_frame
      running_session
    = Returns (true, frame') s' [lockNextBuffer 4%positive] /\
    Frame.width frame' = 540 /\
    Frame.height frame' = 960 /\
    Frame.format frame' = FORMAT_RGBA_8888 /\
    mHaveBuffer s' = true /\
    mHavePendingFrame s' = false.
Proof.
  destruct (C6_lock_success_fills_frame api22 buffer_540_960 zero_frame
              running_session 4%positive eq_refl)
    as (frame' & s' & Hrun & _ & Hformat & Hwidth & Hheight & _ & _ & _ & _
        & _ & Hhave & Hpending).
  exists frame', s'. repeat split; assumption.
Defined.

(** C3, as stated, fails where the product leaves 32 bits: for 65536
    rows of 65536 pixels of 4 bytes the descriptor reports size 0, and
    stride times height times bytes-per-pixel is 2^34. *)
Lemma C3_size_wraps_at_32_bits :
  exists frame' s' calls,
    consumePendingFrame api22 (NO_ERROR, buffer_65536) zero_frame
      running_session
    = Returns (true, frame') s' calls /\
    Frame.bpp frame' = 4 /\
    Frame.size frame' = 0 /\
    Frame.size frame'
    <> stride buffer_65536 * height buffer_65536 * Frame.bpp frame'.
Proof.
  eexists. eexists. eexists. split; [vm_compute; reflexivity|].
  cbn. repeat split. discriminate.
Qed.

(** C3 (amended).  For a locked buffer with stride [s] and height [h]
    (both [uint32_t]) and a format of [b] bytes per pixel, the
    descriptor reports [bpp = b], taken from the native format, and
    [size = (s * h * b) mod 2^32]: the product is formed from the stride,
    not from the width, in 32-bit unsigned arithmetic, and equals
    [s * h * b] whenever that is below 2^32. *)
Theorem C3_frame_size_from_stride
    (pf : PixelFormats) (buffer : LockedBuffer) (frame : Frame.t)
    (s : MinicapImpl.t) (consumer : handle) (b : Z) :
  mConsumer s = Some consumer ->
  is_uint32 (stride buffer) ->
  is_uint32 (height buffer) ->
  bytesPerPixel (format buffer) = b ->
  is_uint32 b ->
  exists frame' s' calls,
    consumePendingFrame pf (NO_ERROR, buffer) frame s
    = Returns (true, frame') s' calls /\
    Frame.bpp frame' = b /\
    Frame.size frame' = (stride buffer * height buffer * b) mod 2 ^ 32 /\
    (stride buffer * height buffer * b < 2 ^ 32 ->
     Frame.size frame' = stride buffer * height buffer * b).
Proof.
  intros Hc Hs Hh Hb Hr. destruct s. cbn in Hc. subst. step_members.
  eexists. eexists. eexists. split; [reflexivity|]. cbn [Frame.bpp Frame.size].
  rewrite (to_uint32_id (bytesPerPixel (format buffer))) by assumption.
  rewrite to_uint32_mul_l. unfold is_uint32, to_uint32 in *.
  repeat split. intros Hlt. apply Z.mod_small. split; [|assumption].
  apply Z.mul_nonneg_nonneg; [apply Z.mul_nonneg_nonneg|]; lia.
Qed.

Lemma C3_frame_size_of_padded_buffer :
  exists frame' s' calls,
    consumePendingFrame api22 (NO_ERROR, buffer_540_960) zero_frame
      running_session
    = Returns (true, frame') s' calls /\
    Frame.bpp frame' = 4 /\
    Frame.size frame' = 544 * 960 * 4.
Proof.
  destruct (C3_frame_size_from_stride api22 buffer_540_960 zero_frame
              running_session 4%positive 4 eq_refl)
    as (frame' & s' & calls & Hrun & Hbpp & Hsize & Hfit);
    try (vm_compute; intuition discriminate).
  exists frame', s', calls. repeat split; [exact Hrun | exact Hbpp |].
  apply Hfit. reflexivity.
Defined.

(** ** Waiting for a frame *)

Lemma set_mHaveBuffer_same s :
  mHaveBuffer s = false -> set_mHaveBuffer false s = s.
Proof. destruct s. cbn. now intros ->. Qed.

(** C4: on a running session (the consumer and the waiter are there),
    [waitForFrame] first gives back the buffer held from a prior read,
    if any, and clears [mHaveBuffer]; with a frame pending it then takes
    one from the waiter, sets [mHavePendingFrame] and returns [true];
    with none pending it stays in the waiter, the buffer already given
    back, and completes the same way once a frame is signalled.  It
    never returns [false].  Two calls in a row give the held buffer back
    exactly once, in the first call, and leave [mHaveBuffer] clear. *)
Theorem C4_waitForFrame_unlocks_then_waits
    (s : MinicapImpl.t) (consumer : handle) (waiter : FrameWaiter.t) :
  mConsumer s = Some consumer ->
  mWaiter s = Some waiter ->
  (FrameWaiter.mPendingFrames waiter <> 0 ->
   exists waiter',
     FrameWaiter.waitForFrame waiter = Some waiter' /\
     waitForFrame s
     = Returns true
         (set_mHavePendingFrame true
            (set_mWaiter (Some waiter') (set_mHaveBuffer false s)))
         (unlock_held consumer s)) /\
  (FrameWaiter.mPendingFrames waiter = 0 ->
   waitForFrame s
   = Blocks (set_mHaveBuffer false s) (unlock_held consumer s) /\
   waitForFrame (frameAvailable (set_mHaveBuffer false s))
   = Returns true
       (set_mHavePendingFrame true (set_mHaveBuffer false s)) []) /\
  (forall b s' calls, waitForFrame s = Returns b s' calls ->
     b = true /\ mHaveBuffer s' = false /\ mHavePendingFrame s' = true) /\
  calls_of ((waitForFrame ;; waitForFrame) s) = unlock_held consumer s /\
  option_map mHaveBuffer (members_of ((waitForFrame ;; waitForFrame) s))
  = Some false.
Proof.
  intros Hc Hw. destruct s as [? ? ? ? ? ? ? ? ? ? ? held ? ? ?].
  cbn in Hc, Hw. subst. destruct waiter as [pending].
  cbn [FrameWaiter.mPendingFrames].
  split; [|split; [|split]].
  - intros Hne. exists (FrameWaiter.mk (to_int32 (pending - 1))).
    unfold FrameWaiter.waitForFrame. cbn [FrameWaiter.mPendingFrames].
    destruct (Z.eqb_spec pending 0) as [|_]; [contradiction|].
    split; [reflexivity|].
    destruct held; step_members; unfold FrameWaiter.waitForFrame;
      cbn [FrameWaiter.mPendingFrames];
      destruct (Z.eqb_spec pending 0) as [|_]; try contradiction;
      reflexivity.
  - intros ->. destruct held; split; reflexivity.
  - intros b s' calls.
    destruct held; step_members; unfold FrameWaiter.waitForFrame;
      cbn [FrameWaiter.mPendingFrames];
      destruct (pending =? 0); cbn; intros H; try discriminate;
      injection H as <- <- <-; repeat split.
  - destruct held; step_members; unfold FrameWaiter.waitForFrame;
      cbn [FrameWaiter.mPendingFrames];
      destruct (pending =? 0); cbn;
      try (destruct (to_int32 (pending - 1) =? 0)); cbn; split; reflexivity.
Qed.

Lemma C4_waitForFrame_on_held_buffer :
  calls_of ((waitForFrame ;; waitForFrame) holding_session)
  = [unlockBuffer 4%positive buffer_540_960] /\
  option_map mHaveBuffer
    (members_of ((waitForFrame ;; waitForFrame) holding_session))
  = Some false.
Proof.
  exact (proj2 (proj2 (proj2
           (C4_waitForFrame_unlocks_then_waits holding_session 4%positive
              (FrameWaiter.mk 2) eq_refl eq_refl)))).
Defined.

(** ** Tearing down *)

(** C7: [release], from any session whose held buffer has a consumer
    to go back to, destroys the display token, gives the held buffer
    back, nulls the producer, the consumer, the reader, the listener and
    the token, and clears the three flags.  A second [release] right
    after returns with the members as they are: it gives no buffer back
    and names no token, its one call into the platform being
    [destroyDisplay] on the null token. *)
Theorem C7_release_twice (s : MinicapImpl.t) :
  (mHaveBuffer s = true -> mConsumer s <> None) ->
  exists s1 calls1,
    release s = Returns tt s1 calls1 /\
    calls1 = destroyDisplay (mVirtualDisplay s)
             :: match mConsumer s with
                | Some consumer => unlock_held consumer s
                | None => []
                end /\
    mBufferProducer s1 = None /\
    mBufferConsumer s1 = None /\
    mConsumer s1 = None /\
    mWaiter s1 = None /\
    mVirtualDisplay s1 = None /\
    mHaveBuffer s1 = false /\
    mHavePendingFrame s1 = false /\
    mHaveRunningDisplay s1 = false /\
    release s1 = Returns tt s1 [destroyDisplay None] /\
    (release ;; release) s = Returns tt s1 (calls1 ++ [destroyDisplay None]).
Proof.
  intros Hwf.
  destruct s as [id rw rh dw dh o bp bc reader vd wt held pend running buf].
  cbn in Hwf.
  exists (MinicapImpl.mk id rw rh dw dh o None None None None None
            false false false buf).
  destruct held; destruct reader as [consumer|];
    try (now destruct Hwf);
    (eexists; split; [vm_compute; reflexivity|];
     repeat (split; [vm_compute; reflexivity|]); vm_compute; reflexivity).
Qed.

Lemma C7_release_twice_on_held_buffer :
  exists s1,
    (release ;; release) holding_session
    = Returns tt s1
        [destroyDisplay (Some 1%positive);
         unlockBuffer 4%positive buffer_540_960;
         destroyDisplay None] /\
    release s1 = Returns tt s1 [destroyDisplay None].
Proof.
  destruct (C7_release_twice holding_session ltac:(discriminate))
    as (s1 & calls1 & _ & Hcalls & _ & _ & _ & _ & _ & _ & _ & _ & Hagain
        & Htwice).
  exists s1. split; [|exact Hagain].
  rewrite Htwice, Hcalls. reflexivity.
Defined.

End MinicapImplFacts.

(** ** The pixel format table *)

Section ConvertFormat.

Import android Minicap MinicapImpl.

Variable pf : PixelFormats.

(** The labels of the [switch] are pairwise different, as C++ requires. *)
Hypothesis labels_distinct : NoDup (case_labels pf).

Ltac next_label :=
  match goal with
  | |- context [?a =? ?b] =>
      destruct (Z.eqb_spec a b) as [->|?]; [try reflexivity|]
  end.

Lemma convertFormat_of_other_code format :
  ~ In format (case_labels pf) -> convertFormat pf format = FORMAT_UNKNOWN.
Proof.
  unfold case_labels, convertFormat. cbn [In]. intros Hout.
  repeat (next_label; [exfalso; apply Hout; tauto|]).
  reflexivity.
Qed.

Lemma convertFormat_of_label :
  convertFormat pf PIXEL_FORMAT_NONE = FORMAT_NONE /\
  convertFormat pf PIXEL_FORMAT_CUSTOM = FORMAT_CUSTOM /\
  convertFormat pf PIXEL_FORMAT_TRANSLUCENT = FORMAT_TRANSLUCENT /\
  convertFormat pf PIXEL_FORMAT_TRANSPARENT = FORMAT_TRANSPARENT /\
  convertFormat pf PIXEL_FORMAT_OPAQUE = FORMAT_OPAQUE /\
  convertFormat pf PIXEL_FORMAT_RGBA_8888 = FORMAT_RGBA_8888 /\
  convertFormat pf PIXEL_FORMAT_RGBX_8888 = FORMAT_RGBX_8888 /\
  convertFormat pf PIXEL_FORMAT_RGB_888 = FORMAT_RGB_888 /\
  convertFormat pf PIXEL_FORMAT_RGB_565 = FORMAT_RGB_565 /\
  convertFormat pf PIXEL_FORMAT_BGRA_8888 = FORMAT_BGRA_8888 /\
  convertFormat pf PIXEL_FORMAT_RGBA_5551 = FORMAT_RGBA_5551 /\
  convertFormat pf PIXEL_FORMAT_RGBA_4444 = FORMAT_RGBA_4444.
Proof.
  pose proof labels_distinct as H. unfold case_labels in H.
  repeat match goal with
         | D : NoDup (_ :: _) |- _ =>
             apply NoDup_cons_iff in D; destruct D as [? D]
         end.
  clear H. cbn [In] in *.
  repeat match goal with
         | D : ~ (_ \/ _) |- _ =>
             apply Decidable.not_or in D; destruct D as [? D]
         end.
  unfold convertFormat.
  repeat split;
    repeat match goal with
           | |- context [?a =? ?b] =>
               destruct (Z.eqb_spec a b) as [?|?];
               [first [reflexivity | contradiction]|]
           end; contradiction.
Qed.

(** C8: [convertFormat] is a function of the native code alone; each
    of the twelve codes it lists goes to the format of the same name,
    and every other code goes to [FORMAT_UNKNOWN]. *)
Theorem C8_convertFormat_table :
  convertFormat pf PIXEL_FORMAT_NONE = FORMAT_NONE /\
  convertFormat pf PIXEL_FORMAT_CUSTOM = FORMAT_CUSTOM /\
  convertFormat pf PIXEL_FORMAT_TRANSLUCENT = FORMAT_TRANSLUCENT /\
  convertFormat pf PIXEL_FORMAT_TRANSPARENT = FORMAT_TRANSPARENT /\
  convertFormat pf PIXEL_FORMAT_OPAQUE = FORMAT_OPAQUE /\
  convertFormat pf PIXEL_FORMAT_RGBA_8888 = FORMAT_RGBA_8888 /\
  convertFormat pf PIXEL_FORMAT_RGBX_8888 = FORMAT_RGBX_8888 /\
  convertFormat pf PIXEL_FORMAT_RGB_888 = FORMAT_RGB_888 /\
  convertFormat pf PIXEL_FORMAT_RGB_565 = FORMAT_RGB_565 /\
  convertFormat pf PIXEL_FORMAT_BGRA_8888 = FORMAT_BGRA_8888 /\
  convertFormat pf PIXEL_FORMAT_RGBA_5551 = FORMAT_RGBA_5551 /\
  convertFormat pf PIXEL_FORMAT_RGBA_4444 = FORMAT_RGBA_4444 /\
  (forall format, ~ In format (case_labels pf) ->
     convertFormat pf format = FORMAT_UNKNOWN).
Proof.
  pose proof convertFormat_of_label as H. decompose [and] H. clear H.
  repeat (split; [assumption|]). exact convertFormat_of_other_code.
Qed.

End ConvertFormat.

(** ** The display query *)

Section DisplayQuery.

Context {F : Type} {ops : FloatOps F}.

Variable sc : SurfaceComposerClient F.

(** The code hands the token to [getDisplayInfo] without looking at it;
    the platform answers a null token with an error status. *)
Hypothesis null_token_refused : fst (getDisplayInfo sc None) <> NO_ERROR.

Lemma minicap_try_get_display_info_refused displayId info :
  fst (getDisplayInfo sc (getBuiltInDisplay sc displayId)) <> NO_ERROR ->
  minicap_try_get_display_info sc displayId info = (false, info).
Proof.
  unfold minicap_try_get_display_info.
  destruct (getDisplayInfo sc (getBuiltInDisplay sc displayId))
    as [err dinfo].
  cbn [fst]. intros Herr.
  destruct (Z.eqb_spec err NO_ERROR); [contradiction | reflexivity].
Qed.

(** C9: for an id without a display token, and for a query that
    answers a status other than [NO_ERROR], the function returns [false]
    and the caller's [DisplayInfo] is as it was.  When the query answers
    [NO_ERROR] it returns [true] and every field is written from the
    answer, the last one as
    [sqrt (pow (w / xdpi, 2) + pow (h / ydpi, 2))]. *)
Theorem C9_try_get_display_info
    (displayId : Z) (info : Minicap.DisplayInfo.t F) :
  let dpy := getBuiltInDisplay sc displayId in
  let err := fst (getDisplayInfo sc dpy) in
  let dinfo := snd (getDisplayInfo sc dpy) in
  (dpy = None \/ err <> NO_ERROR ->
   minicap_try_get_display_info sc displayId info = (false, info)) /\
  (err = NO_ERROR ->
   minicap_try_get_display_info sc displayId info
   = (true,
      Minicap.DisplayInfo.mk
        (android.w dinfo) (android.h dinfo) (android.orientation dinfo)
        (android.fps dinfo) (android.density dinfo)
        (android.xdpi dinfo) (android.ydpi dinfo) (android.secure dinfo)
        (sqrt (fadd
                 (pow (fdiv (of_uint32 (android.w dinfo))
                            (android.xdpi dinfo)) (of_int 2))
                 (pow (fdiv (of_uint32 (android.h dinfo))
                            (android.ydpi dinfo)) (of_int 2)))))).
Proof.
  intros dpy err dinfo. split.
  - intros [Hnull | Herr].
    + apply minicap_try_get_display_info_refused.
      fold dpy. rewrite Hnull. exact null_token_refused.
    + now apply minicap_try_get_display_info_refused.
  - subst err dinfo. unfold minicap_try_get_display_info. fold dpy.
    destruct (getDisplayInfo sc dpy) as [e d]. cbn [fst snd].
    intros ->. reflexivity.
Qed.

End DisplayQuery.

(** On a platform with the built-in display 0 only: id 7 has no token
    and leaves the caller's structure alone; id 0 fills it. *)
Lemma C9_try_get_display_info_on_one_display :
  minicap_try_get_display_info one_display 7 real_1080_1920
  = (false, real_1080_1920) /\
  minicap_try_get_display_info one_display 0 desired_540_960
  = (true,
     Minicap.DisplayInfo.mk 1080 1920 0 (lit 60) (lit 3) (lit 480) (lit 480)
       false
       (sym_sqrt
          (sym_add
             (sym_pow (sym_div (sym_of_uint32 1080) (lit 480)) (sym_of_int 2))
             (sym_pow (sym_div (sym_of_uint32 1920) (lit 480))
                (sym_of_int 2))))).
Proof.
  assert (Hnull : fst (getDisplayInfo one_display None) <> NO_ERROR)
    by discriminate.
  split.
  - exact (proj1 (C9_try_get_display_info one_display Hnull 7
                    real_1080_1920) (or_introl eq_refl)).
  - exact (proj2 (C9_try_get_display_info one_display Hnull 0
                    desired_540_960) eq_refl).
Defined.

(** The API 22 codes are pairwise different; the table on them. *)
Lemma C8_convertFormat_table_api22 :
  NoDup (android.case_labels android.api22) /\
  MinicapImpl.convertFormat android.api22 1 = Minicap.FORMAT_RGBA_8888 /\
  MinicapImpl.convertFormat android.api22 8 = Minicap.FORMAT_UNKNOWN.
Proof.
  assert (Hd : NoDup (android.case_labels android.api22)).
  { unfold android.case_labels. cbn.
    repeat (apply NoDup_cons; [cbn; intuition discriminate|]).
    apply NoDup_nil. }
  split; [exact Hd|]. split.
  - exact (proj1 (proj2 (proj2 (proj2 (proj2 (proj2
             (C8_convertFormat_table android.api22 Hd))))))).
  - apply (C8_convertFormat_table android.api22 Hd).
    cbn. intuition discriminate.
Defined.

(** ** Tables of cases *)

Section SwitchFacts.

Context {A : Type}.

Lemma switch_default (cases : list (Z * A)) (default : A) (x : Z) :
  ~ In x (map fst cases) -> switch cases default x = default.
Proof.
  induction cases as [|[label a] rest IH]; cbn [switch map fst In];
    intros Hout; [reflexivity|].
  destruct (Z.eqb_spec x label) as [->|_]; [|apply IH]; tauto.
Qed.

(** The case taken is one of the table. *)
Lemma switch_taken (cases : list (Z * A)) (default : A) (x : Z) :
  In x (map fst cases) -> In (x, switch cases default x) cases.
Proof.
  induction cases as [|[label a] rest IH]; cbn [switch map fst In];
    intros Hin; [contradiction|].
  destruct (Z.eqb_spec x label) as [->|Hne]; [now left|].
  right. apply IH. destruct Hin as [Heq|Hin]; [congruence | assumption].
Qed.


Lemma same_value_same_label (cases : list (Z * A)) (x y : Z) (a : A) :
  NoDup (map snd cases) -> In (x, a) cases -> In (y, a) cases -> x = y.
Proof.
  induction cases as [|[label a'] rest IH]; cbn [map snd In];
    intros Hnd Hx Hy; [contradiction|].
  apply NoDup_cons_iff in Hnd as [Hfresh Hnd].
  destruct Hx as [Hx|Hx], Hy as [Hy|Hy]; try congruence.
  - exfalso. apply Hfresh. apply (in_map snd) in Hy. cbn in Hy. congruence.
  - exfalso. apply Hfresh. apply (in_map snd) in Hx. cbn in Hx. congruence.
  - now apply IH.
Qed.

Lemma switch_injective (cases : list (Z * A)) (default : A) (x y : Z) :
  NoDup (map snd cases) ->
  In x (map fst cases) -> In y (map fst cases) ->
  switch cases default x = switch cases default y -> x = y.
Proof.
  intros Hnd Hx Hy Heq.
  apply (switch_taken cases default) in Hx, Hy. rewrite Heq in Hx.
  exact (same_value_same_label cases x y _ Hnd Hx Hy).
Qed.

Lemma switch_default_iff (cases : list (Z * A)) (default : A) (x : Z) :
  ~ In default (map snd cases) ->
  switch cases default x = default <-> ~ In x (map fst cases).
Proof.
  intros Hd. split; [|apply switch_default].
  intros Heq Hin. apply (switch_taken cases default) in Hin.
  rewrite Heq in Hin. apply Hd. now apply (in_map snd) in Hin.
Qed.

End SwitchFacts.

(** ** Status names *)

Section ErrorName.

Variable codes : Errors.StatusCodes.

Lemma error_names_distinct : NoDup (map snd (error_name_cases codes)).
Proof.
  cbn [map snd error_name_cases].
  repeat (apply NoDup_cons; [cbn [In]; intuition discriminate|]).
  apply NoDup_nil.
Qed.

Lemma unmapped_is_no_case :
  ~ In "UNMAPPED_ERROR"%string (map snd (error_name_cases codes)).
Proof. cbn [map snd error_name_cases In]. intuition discriminate. Qed.

(** [error_name] answers ["UNMAPPED_ERROR"] exactly for the codes that
    are no case label: a name other than that one always stands for a
    listed code. *)
Theorem error_name_unmapped_iff (err : Z) :
  error_name codes err = "UNMAPPED_ERROR"%string <-> ~ In err (error_labels codes).
Proof. apply switch_default_iff, unmapped_is_no_case. Qed.

(** Two listed codes with the same name are the same code: the name in
    a log line identifies the status. *)
Theorem error_name_injective_on_labels (a b : Z) :
  In a (error_labels codes) -> In b (error_labels codes) ->
  error_name codes a = error_name codes b -> a = b.
Proof. apply switch_injective, error_names_distinct. Qed.


End ErrorName.

Lemma error_name_injective_on_linux_codes :
  In (-22) (error_labels Errors.linux) /\
  In (-22) (error_labels Errors.linux) /\
  error_name Errors.linux (-22) = "BAD_VALUE"%string /\
  -22 = -22.
Proof.
  assert (Hin : In (-22) (error_labels Errors.linux)) by (cbn; tauto).
  split; [exact Hin|]. split; [exact Hin|]. split; [reflexivity|].
  exact (error_name_injective_on_labels Errors.linux (-22) (-22) Hin Hin
           eq_refl).
Defined.


(** ** The pixel format table, read backwards *)

Section ConvertFormatBackwards.

Import android Minicap MinicapImpl.

Variable pf : PixelFormats.

Lemma convertFormat_as_switch format :
  convertFormat pf format
  = switch (convertFormat_cases pf) FORMAT_UNKNOWN format.
Proof. reflexivity. Qed.

Lemma formats_distinct : NoDup (map snd (convertFormat_cases pf)).
Proof.
  cbn [map snd convertFormat_cases].
  repeat (apply NoDup_cons; [cbn [In]; intuition discriminate|]).
  apply NoDup_nil.
Qed.

(** [convertFormat] answers [FORMAT_UNKNOWN] exactly for the codes that
    are no case label, whatever the platform's numbering: a listed code
    is never reported as unknown. *)
Theorem convertFormat_unknown_iff (format : Z) :
  convertFormat pf format = FORMAT_UNKNOWN <-> ~ In format (case_labels pf).
Proof.
  rewrite convertFormat_as_switch.
  apply (switch_default_iff (convertFormat_cases pf)).
  cbn [map snd convertFormat_cases In]. intuition discriminate.
Qed.

(** Two listed codes that convert to the same format are the same
    code: the conversion loses nothing on the listed codes. *)
Theorem convertFormat_injective_on_labels (a b : Z) :
  In a (case_labels pf) -> In b (case_labels pf) ->
  convertFormat pf a = convertFormat pf b -> a = b.
Proof.
  rewrite !convertFormat_as_switch.
  apply (switch_injective (convertFormat_cases pf)), formats_distinct.
Qed.

End ConvertFormatBackwards.

Lemma convertFormat_injective_on_api22_codes :
  In 4 (android.case_labels android.api22) /\
  MinicapImpl.convertFormat android.api22 4 = Minicap.FORMAT_RGB_565 /\
  4 = 4.
Proof.
  assert (Hin : In 4 (android.case_labels android.api22)) by (cbn; tauto).
  split; [exact Hin|]. split; [reflexivity|].
  exact (convertFormat_injective_on_labels android.api22 4 4 Hin Hin eq_refl).
Defined.

(** ** The frame waiter, one frame at a time *)

(** A signal followed by a wait leaves the waiter as it was, and the
    wait returns, from every count between 0 and [INT_MAX] - 1. *)
Theorem signal_then_wait (w : FrameWaiter.t) :
  0 <= FrameWaiter.mPendingFrames w < INT_MAX ->
  FrameWaiter.waitForFrame (FrameWaiter.onFrameAvailable w) = Some w.
Proof.
  destruct w as [p]. cbn [FrameWaiter.mPendingFrames]. intros Hp.
  unfold FrameWaiter.onFrameAvailable, FrameWaiter.waitForFrame.
  cbn [FrameWaiter.mPendingFrames].
  rewrite (to_int32_id (p + 1))
    by (unfold is_int32, INT_MIN, INT_MAX in *; lia).
  destruct (Z.eqb_spec (p + 1) 0) as [|_]; [lia|].
  replace (p + 1 - 1) with p by lia.
  rewrite to_int32_id by (unfold is_int32, INT_MIN, INT_MAX in *; lia).
  reflexivity.
Qed.

Lemma signal_then_wait_on_fresh_waiter :
  FrameWaiter.waitForFrame (FrameWaiter.onFrameAvailable FrameWaiter.new)
  = Some FrameWaiter.new.
Proof.
  apply signal_then_wait. cbn. unfold INT_MAX. lia.
Defined.

(** ** The session over its whole life *)

Ltac unfold_members :=
  cbv beta iota zeta delta
    [perform discard run_requests destructor minicap_free
     MinicapImpl.applyConfigChanges MinicapImpl.createVirtualDisplay
     MinicapImpl.destroyVirtualDisplay MinicapImpl.release
     MinicapImpl.consumePendingFrame MinicapImpl.waitForFrame
     MinicapImpl.setRealInfo MinicapImpl.setDesiredInfo
     MinicapImpl.hasPendingFrame MinicapImpl.getDisplayId
     MinicapImpl.getCaptureMethod MinicapImpl.frameAvailable
     MinicapImpl.bind MinicapImpl.member MinicapImpl.assign
     MinicapImpl.invoke MinicapImpl.arrow MinicapImpl.ret MinicapImpl.park
     MinicapImpl.null_dereference
     MinicapImpl.mDisplayId MinicapImpl.mRealWidth MinicapImpl.mRealHeight
     MinicapImpl.mDesiredWidth MinicapImpl.mDesiredHeight
     MinicapImpl.mDesiredOrientation MinicapImpl.mBufferProducer
     MinicapImpl.mBufferConsumer MinicapImpl.mConsumer
     MinicapImpl.mVirtualDisplay MinicapImpl.mWaiter MinicapImpl.mHaveBuffer
     MinicapImpl.mHavePendingFrame MinicapImpl.mHaveRunningDisplay
     MinicapImpl.mBuffer
     MinicapImpl.set_mRealWidth MinicapImpl.set_mRealHeight
     MinicapImpl.set_mDesiredWidth MinicapImpl.set_mDesiredHeight
     MinicapImpl.set_mDesiredOrientation MinicapImpl.set_mBufferProducer
     MinicapImpl.set_mBufferConsumer MinicapImpl.set_mConsumer
     MinicapImpl.set_mVirtualDisplay MinicapImpl.set_mWaiter
     MinicapImpl.set_mHaveBuffer MinicapImpl.set_mHavePendingFrame
     MinicapImpl.set_mHaveRunningDisplay MinicapImpl.set_mBuffer
     FrameWaiter.waitForFrame FrameWaiter.mPendingFrames
     members_of calls_of held_buffer consistent option_map
     app fst snd negb].

(** A consistent session, taken apart: either running with its four
    pointers, or stopped with none. *)
Ltac split_session s Hs :=
  destruct s as [m_id rw rh dw dh o bp bc reader vd wt held pend running m_buf];
  unfold consistent in Hs; cbn in Hs;
  destruct running;
  [ destruct Hs as (Hbp & Hbc & Hreader & Hwt);
    destruct bp as [bp|]; [|contradiction];
    destruct bc as [bc|]; [|contradiction];
    destruct reader as [reader|]; [|contradiction];
    destruct wt as [[pending]|]; [|contradiction];
    clear Hbp Hbc Hreader Hwt
  | destruct Hs as (-> & -> & -> & -> & -> & -> & ->) ].

Section SessionLife.

Import android Minicap MinicapImpl.

Context {F : Type}.
Variable pf : PixelFormats.

(** Every step keeps the flag and the pointers in agreement. *)
Lemma perform_consistent (r : request F) (s s' : MinicapImpl.t) :
  consistent s ->
  members_of (perform pf r s) = Some s' ->
  consistent s'.
Proof.
  intros Hs. split_session s Hs; destruct r as [sf|[err b] fr| | | | | | | |];
    unfold_members;
    try destruct (initCheck_status sf =? NO_ERROR);
    try destruct (err =? NO_ERROR);
    try destruct held;
    try destruct (pending =? 0);
    unfold_members; intros H; try discriminate;
    injection H as <-; unfold_members; repeat split; congruence.
Qed.


Lemma new_consistent id buf : consistent (minicap_create id buf).
Proof. cbv. repeat split. Qed.

Lemma reachable_keeps (s0 s : MinicapImpl.t) :
  consistent s0 ->
  reachable_from (F:=F) pf s0 s ->
  consistent s /\ mDisplayId s = mDisplayId s0.
Proof.
  intros H0 Hr. induction Hr as [|r s s' Hr [IHc IHid] Hstep].
  - now split.
  - split; [exact (perform_consistent r s s' IHc Hstep)|].
    rewrite <- IHid. clear IHid Hr. revert Hstep.
    split_session s IHc; destruct r as [sf|[err b] fr| | | | | | | |];
      unfold_members;
      try destruct (initCheck_status sf =? NO_ERROR);
      try destruct (err =? NO_ERROR);
      try destruct held;
      try destruct (pending =? 0);
      unfold_members; intros H; try discriminate;
      injection H as <-; reflexivity.
Qed.

(** Whatever the callers and the compositor do to a session made by
    [minicap_create], in whatever order, the flag [mHaveRunningDisplay]
    and the pointers agree: running means the buffer queue, the reader
    and the listener are there; not running means every pointer is null,
    no buffer is held and no frame is pending. *)
Theorem session_stays_consistent (id : Z) (buf : LockedBuffer)
    (s : MinicapImpl.t) :
  reachable_from (F:=F) pf (minicap_create id buf) s -> consistent s.
Proof.
  intros Hr. now apply (reachable_keeps _ s (new_consistent id buf)).
Qed.

(** [getDisplayId] answers the id given to [minicap_create], whatever
    happened to the session in between, and changes nothing. *)
Theorem getDisplayId_is_the_created_id (id : Z) (buf : LockedBuffer)
    (s : MinicapImpl.t) :
  reachable_from (F:=F) pf (minicap_create id buf) s ->
  getDisplayId s = Returns id s [].
Proof.
  intros Hr.
  destruct (reachable_keeps _ s (new_consistent id buf) Hr) as [_ Hid].
  unfold getDisplayId, member. now rewrite Hid.
Qed.

Lemma release_of_consistent (s : MinicapImpl.t) :
  consistent s ->
  exists s' calls,
    release s = Returns tt s' calls /\
    unlocked_buffers calls = held_buffer s /\
    consistent s' /\
    mHaveRunningDisplay s' = false.
Proof.
  intros Hs. split_session s Hs; try destruct held;
    (eexists; eexists; split; [unfold_members; reflexivity|]);
    unfold_members; cbn; repeat split.
Qed.

Lemma applyConfigChanges_of_consistent (sf : Composer) (s : MinicapImpl.t) :
  consistent s ->
  exists s' calls,
    applyConfigChanges pf sf s = Returns false s' calls /\
    unlocked_buffers calls = held_buffer s /\
    mHaveRunningDisplay s' = (initCheck_status sf =? NO_ERROR).
Proof.
  intros Hs. split_session s Hs; try destruct held; unfold_members;
    destruct (initCheck_status sf =? NO_ERROR); unfold_members;
    (eexists; eexists; split; [reflexivity|]); cbn; repeat split.
Qed.

(** In every session a history can lead to, tearing down and
    reconfiguring run to their end: [release], [minicap_free] and
    [applyConfigChanges] neither dereference a null pointer nor park.
    The teardown gives back exactly the buffer that is held, if any, and
    leaves the session stopped; [applyConfigChanges] does the same with
    a held buffer and leaves the session running exactly when
    [initCheck] answers [NO_ERROR]. *)
Theorem teardown_and_reconfiguration_return (id : Z) (buf : LockedBuffer)
    (s : MinicapImpl.t) :
  reachable_from (F:=F) pf (minicap_create id buf) s ->
  (exists s' calls,
     release s = Returns tt s' calls /\
     minicap_free s = Returns tt s' calls /\
     unlocked_buffers calls = held_buffer s /\
     mHaveRunningDisplay s' = false /\
     held_buffer s' = []) /\
  (forall sf, exists s' calls,
     applyConfigChanges pf sf s = Returns false s' calls /\
     unlocked_buffers calls = held_buffer s /\
     mHaveRunningDisplay s' = (initCheck_status sf =? NO_ERROR)).
Proof.
  intros Hr.
  destruct (reachable_keeps _ s (new_consistent id buf) Hr) as [Hs _].
  split.
  - destruct (release_of_consistent s Hs) as (s' & calls & H1 & H2 & H3 & H4).
    exists s', calls. repeat split; try assumption.
    unfold consistent in H3. rewrite H4 in H3.
    unfold held_buffer. now destruct H3 as (_ & _ & _ & _ & _ & -> & _).
  - intros sf. now apply applyConfigChanges_of_consistent.
Qed.

(** Waiting and reading need a running session: in a session a history
    can lead to, [waitForFrame] and [consumePendingFrame] dereference a
    null pointer exactly when [mHaveRunningDisplay] is false, as on a
    fresh session, after [release] and after an [applyConfigChanges]
    whose [initCheck] failed. *)
Theorem wait_and_read_need_a_running_display (id : Z) (buf : LockedBuffer)
    (s : MinicapImpl.t) :
  reachable_from (F:=F) pf (minicap_create id buf) s ->
  ((exists calls, waitForFrame s = Crashes calls)
   <-> mHaveRunningDisplay s = false) /\
  (forall locked frame,
     (exists calls, consumePendingFrame pf locked frame s = Crashes calls)
     <-> mHaveRunningDisplay s = false).
Proof.
  intros Hr.
  destruct (reachable_keeps _ s (new_consistent id buf) Hr) as [Hs _].
  clear Hr. split_session s Hs.
  - split; [|intros [err b] frame]; unfold_members;
      (split; [intros [calls H]|discriminate]); exfalso; revert H;
      try destruct held; try destruct (pending =? 0);
      try destruct (err =? NO_ERROR); discriminate.
  - split; [|intros [err b] frame]; unfold_members;
      (split; [reflexivity|intros _; eexists; reflexivity]).
Qed.


(** ** Reconfiguring *)

(** When [initCheck] fails, [applyConfigChanges] returns [false] without
    creating anything.  A session that was not running is left exactly
    as it was, after the two calls of the check; a session that was
    running has been torn down first and stays stopped. *)
Theorem applyConfigChanges_refused (sf : Composer) (s : MinicapImpl.t) :
  consistent s ->
  initCheck_status sf <> NO_ERROR ->
  exists s' calls,
    applyConfigChanges pf sf s = Returns false s' calls /\
    mHaveRunningDisplay s' = false /\
    consistent s' /\
    (forall name secure, ~ In (createDisplay name secure) calls) /\
    ~ In createBufferQueue calls /\
    (mHaveRunningDisplay s = false ->
     s' = s /\ calls = [new_SurfaceComposerClient; initCheck]) /\
    (mHaveRunningDisplay s = true ->
     release s = Returns tt s' (removelast (removelast calls))).
Proof.
  intros Hs Herr. apply Z.eqb_neq in Herr.
  split_session s Hs; try destruct held; unfold_members; rewrite Herr;
    unfold_members;
    (eexists; eexists; split; [reflexivity|]); cbn;
    repeat split; try discriminate; try (intros; intuition discriminate).
Qed.

(** When [initCheck] succeeds, [applyConfigChanges] replaces every
    pointer by what the platform hands out and starts a fresh waiter:
    no buffer is held, no frame is pending, and a [waitForFrame] right
    after parks, however many frames the old waiter had counted.  The
    geometry members are kept.  The value returned is [false]. *)
Theorem applyConfigChanges_replaces_everything
    (sf : Composer) (s : MinicapImpl.t) :
  consistent s ->
  initCheck_status sf = NO_ERROR ->
  let s' :=
    MinicapImpl.mk (mDisplayId s) (mRealWidth s) (mRealHeight s)
      (mDesiredWidth s) (mDesiredHeight s) (mDesiredOrientation s)
      (Some (createBufferQueue_producer sf))
      (Some (createBufferQueue_consumer sf))
      (Some (new_CpuConsumer_object sf))
      (createDisplay_token sf)
      (Some FrameWaiter.new) false false true (mBuffer s) in
  (exists calls, applyConfigChanges pf sf s = Returns false s' calls) /\
  consistent s' /\
  waitForFrame s' = Blocks s' [].
Proof.
  intros Hs Hok s'. subst s'. apply Z.eqb_eq in Hok.
  split_session s Hs; try destruct held; unfold_members; rewrite Hok;
    unfold_members; (split; [eexists; reflexivity|]); cbn;
    repeat split; discriminate.
Qed.

(** On a running session [applyConfigChanges] is [release] followed by
    [applyConfigChanges]; on any session the two leave the same members
    behind. *)
Theorem applyConfigChanges_releases_first (sf : Composer) (s : MinicapImpl.t) :
  consistent s ->
  members_of ((release ;; applyConfigChanges pf sf) s)
  = members_of (applyConfigChanges pf sf s) /\
  (mHaveRunningDisplay s = true ->
   (release ;; applyConfigChanges pf sf) s = applyConfigChanges pf sf s).
Proof.
  intros Hs.
  split_session s Hs; try destruct held; unfold_members;
    destruct (initCheck_status sf =? NO_ERROR); unfold_members; cbn;
    split; try reflexivity; discriminate.
Qed.

(** ** Buffers handed out and given back *)

Lemma unlocked_buffers_app (c1 c2 : list call) :
  unlocked_buffers (c1 ++ c2) = unlocked_buffers c1 ++ unlocked_buffers c2.
Proof.
  induction c1 as [|c rest IH]; [reflexivity|].
  destruct c; cbn [app unlocked_buffers]; rewrite IH; reflexivity.
Qed.

Lemma bind_returns {A B} (m : M A) (k : A -> M B) s b s' calls :
  (x <- m ;; k x) s = Returns b s' calls ->
  exists a s1 c1 c2,
    m s = Returns a s1 c1 /\ k a s1 = Returns b s' c2 /\ calls = c1 ++ c2.
Proof.
  unfold bind. destruct (m s) as [a s1 c1| |] eqn:Hm; try discriminate.
  destruct (k a s1) as [b' s2 c2| |] eqn:Hk; try discriminate.
  intros H. injection H as <- <- <-. now exists a, s1, c1, c2.
Qed.

(** One step of a disciplined history: what it gives back, plus what is
    held after it, is what was held before it plus what it locked. *)
Lemma perform_accounts (r : request F) (rest : list (request F))
    (s s1 : MinicapImpl.t) (c1 : list call) :
  consistent s ->
  reads_follow_waits (mHaveBuffer s) (r :: rest) = true ->
  perform pf r s = Returns tt s1 c1 ->
  unlocked_buffers c1 ++ held_buffer s1
  = held_buffer s ++ locked_buffers [r] /\
  reads_follow_waits (mHaveBuffer s1) rest = true.
Proof.
  intros Hs. split_session s Hs; destruct r as [sf|[err b] fr| | | | | | | |];
    cbn [reads_follow_waits locked_buffers fst snd mHaveBuffer];
    unfold_members;
    try destruct (initCheck_status sf =? NO_ERROR);
    try destruct held;
    try destruct (err =? NO_ERROR);
    try destruct (pending =? 0);
    unfold_members; cbn [andb]; intros Hd H; try discriminate;
    injection H as <- <-; cbn; split; solve [reflexivity | assumption].
Qed.

Lemma locked_buffers_cons (r : request F) (rest : list (request F)) :
  locked_buffers (r :: rest) = locked_buffers [r] ++ locked_buffers rest.
Proof.
  destruct r as [sf|[err b] fr| | | | | | | |]; cbn [locked_buffers fst snd];
    try reflexivity.
  destruct (err =? NO_ERROR); reflexivity.
Qed.

Lemma run_requests_accounts (rs : list (request F)) :
  forall (s s' : MinicapImpl.t) (calls : list call),
    consistent s ->
    reads_follow_waits (mHaveBuffer s) rs = true ->
    run_requests pf rs s = Returns tt s' calls ->
    unlocked_buffers calls ++ held_buffer s'
    = held_buffer s ++ locked_buffers rs.
Proof.
  induction rs as [|r rest IH]; intros s s' calls Hs Hd Hrun.
  - cbn in Hrun. injection Hrun as <- <-. cbn. now rewrite app_nil_r.
  - cbn [run_requests] in Hrun.
    apply bind_returns in Hrun as ([] & s1 & c1 & c2 & H1 & H2 & ->).
    destruct (perform_accounts r rest s s1 c1 Hs Hd H1) as [Hacc Hd1].
    assert (Hs1 : consistent s1).
    { apply (perform_consistent r s s1 Hs). now rewrite H1. }
    rewrite unlocked_buffers_app, <- app_assoc, (IH s1 s' c2 Hs1 Hd1 H2).
    now rewrite app_assoc, Hacc, <- app_assoc, <- locked_buffers_cons.
Qed.

Lemma run_requests_consistent (rs : list (request F)) :
  forall (s s' : MinicapImpl.t) (calls : list call),
    consistent s ->
    run_requests pf rs s = Returns tt s' calls ->
    consistent s'.
Proof.
  induction rs as [|r rest IH]; intros s s' calls Hs Hrun.
  - cbn in Hrun. now injection Hrun as <- <-.
  - cbn [run_requests] in Hrun.
    apply bind_returns in Hrun as ([] & s1 & c1 & c2 & H1 & H2 & ->).
    apply (IH s1 s' c2); [|assumption].
    apply (perform_consistent r s s1 Hs). now rewrite H1.
Qed.

(** In a history that never reads while a buffer is held, started on a
    session without a held buffer, the buffers given back by
    [unlockBuffer], followed by the one still held, are the buffers
    handed out by the successful [lockNextBuffer] calls, each once and
    in the same order: nothing is given back twice, nothing that was not
    locked is given back, and all that is missing is the buffer in
    hand.  A [release] at the end gives that one back too. *)
Theorem every_locked_buffer_is_given_back_once
    (rs : list (request F)) (s s' : MinicapImpl.t) (calls : list call) :
  consistent s ->
  mHaveBuffer s = false ->
  reads_follow_waits false rs = true ->
  run_requests pf rs s = Returns tt s' calls ->
  unlocked_buffers calls ++ held_buffer s' = locked_buffers rs /\
  exists s'' calls',
    release s' = Returns tt s'' calls' /\
    unlocked_buffers (calls ++ calls') = locked_buffers rs.
Proof.
  intros Hs Hheld Hd Hrun.
  assert (Hacc : unlocked_buffers calls ++ held_buffer s' = locked_buffers rs).
  { rewrite <- Hheld in Hd.
    rewrite (run_requests_accounts rs s s' calls Hs Hd Hrun).
    unfold held_buffer at 1. now rewrite Hheld. }
  split; [exact Hacc|].
  destruct (release_of_consistent s'
              (run_requests_consistent rs s s' calls Hs Hrun))
    as (s'' & calls' & Hrel & Hun & _ & _).
  exists s'', calls'. split; [exact Hrel|].
  now rewrite unlocked_buffers_app, Hun.
Qed.

(** [consumePendingFrame] does not look at [mHaveBuffer]: a second read
    without a [waitForFrame] in between locks again and overwrites
    [mBuffer], and the buffer of the first read is never given back,
    not even by [release]. *)
Theorem reading_twice_loses_the_first_buffer
    (s : MinicapImpl.t) (b1 b2 : LockedBuffer) (f1 f2 : Frame.t) :
  consistent s ->
  mHaveRunningDisplay s = true ->
  mHaveBuffer s = false ->
  exists s' calls,
    run_requests (F:=F) pf
      [do_consumePendingFrame (NO_ERROR, b1) f1;
       do_consumePendingFrame (NO_ERROR, b2) f2;
       do_release] s
    = Returns tt s' calls /\
    unlocked_buffers calls = [b2].
Proof.
  intros Hs Hrun Hheld. split_session s Hs; [|discriminate].
  cbn in Hheld. subst held.
  exists (MinicapImpl.mk m_id rw rh dw dh o None None None None None
            false false false b2),
         [lockNextBuffer reader; lockNextBuffer reader; destroyDisplay vd;
          unlockBuffer reader b2].
  split; [vm_compute; reflexivity | reflexivity].
Qed.

(** ** The pending-frame flag *)

(** [mHavePendingFrame], which [hasPendingFrame] reports, goes from
    [false] to [true] in one way only: a [waitForFrame] that returns.
    The delivery of a frame by the compositor does not raise it, nor
    does a [waitForFrame] that parks. *)
Theorem only_a_returned_wait_raises_the_pending_flag
    (r : request F) (s s' : MinicapImpl.t) :
  consistent s ->
  members_of (perform pf r s) = Some s' ->
  mHavePendingFrame s = false ->
  mHavePendingFrame s' = true ->
  r = do_waitForFrame /\ exists calls, perform pf r s = Returns tt s' calls.
Proof.
  intros Hs. split_session s Hs; destruct r as [sf|[err b] fr| | | | | | | |];
    unfold_members;
    try destruct (initCheck_status sf =? NO_ERROR);
    try destruct (err =? NO_ERROR);
    try destruct held;
    try destruct (pending =? 0);
    unfold_members; intros H; try discriminate;
    injection H as <-; cbn; intros Hbefore Hafter; try congruence;
    (split; [reflexivity | eexists; reflexivity]).
Qed.

(** ** From the setters to the platform *)

(** The sizes and the orientation given to [setRealInfo] and
    [setDesiredInfo] are what a following [applyConfigChanges] hands to
    the platform, after tearing down a running display: the buffer
    queue gets the desired size and [PIXEL_FORMAT_RGBA_8888], the reader
    takes one buffer at a time, and the surface, the projection (the
    real size as the layer stack rectangle, the desired size as the
    visible one, both from the origin) and layer stack 0 are set between
    [openGlobalTransaction] and [closeGlobalTransaction]. *)
Theorem geometry_reaches_the_platform
    (real desired : DisplayInfo.t F) (sf : Composer) (s : MinicapImpl.t) :
  consistent s ->
  initCheck_status sf = NO_ERROR ->
  0 <= DisplayInfo.width real < 2 ^ 31 ->
  0 <= DisplayInfo.height real < 2 ^ 31 ->
  0 <= DisplayInfo.width desired < 2 ^ 31 ->
  0 <= DisplayInfo.height desired < 2 ^ 31 ->
  calls_of ((setRealInfo real ;; setDesiredInfo desired ;;
             applyConfigChanges pf sf) s)
  = (if mHaveRunningDisplay s then calls_of (release s) else [])
    ++ [ new_SurfaceComposerClient;
         initCheck;
         createDisplay "minicap" true;
         createBufferQueue;
         disableAsyncBuffer (createBufferQueue_consumer sf);
         setDefaultBufferSize (createBufferQueue_consumer sf)
           (DisplayInfo.width desired) (DisplayInfo.height desired);
         setDefaultBufferFormat (createBufferQueue_consumer sf)
           PIXEL_FORMAT_RGBA_8888;
         new_CpuConsumer (createBufferQueue_consumer sf) 1 false;
         setName (new_CpuConsumer_object sf) "minicap";
         setFrameAvailableListener (new_CpuConsumer_object sf);
         openGlobalTransaction;
         setDisplaySurface (createDisplay_token sf)
           (Some (createBufferQueue_producer sf));
         setDisplayProjection (createDisplay_token sf)
           (DisplayInfo.orientation desired)
           (mkRect 0 0 (DisplayInfo.width real) (DisplayInfo.height real))
           (mkRect 0 0 (DisplayInfo.width desired)
              (DisplayInfo.height desired));
         setDisplayLayerStack (createDisplay_token sf) 0;
         closeGlobalTransaction ].
Proof.
  intros Hs Hok Hrw Hrh Hdw Hdh. apply Z.eqb_eq in Hok.
  assert (Hfit : forall z, 0 <= z < 2 ^ 31 -> to_int32 z = z).
  { intros z Hz. apply to_int32_id. unfold is_int32, INT_MIN, INT_MAX. lia. }
  destruct real as [rw' rh' ro rf rd rx ry rs' rz].
  destruct desired as [dw' dh' do' df dd dx dy ds dz].
  cbn [DisplayInfo.width DisplayInfo.height DisplayInfo.orientation] in *.
  split_session s Hs; try destruct held; unfold_members; rewrite Hok;
    unfold_members; unfold Rect_wh; rewrite !Hfit by assumption;
    reflexivity.
Qed.


(** ** Frames signalled ahead of the consumer *)

Lemma frames_arrive (n : nat) : forall (s : MinicapImpl.t) (p : Z),
  mWaiter s = Some (FrameWaiter.mk p) ->
  0 <= p ->
  p + Z.of_nat n <= INT_MAX ->
  run_requests (F:=F) pf (repeat do_frameAvailable n) s
  = Returns tt (set_mWaiter (Some (FrameWaiter.mk (p + Z.of_nat n))) s) [].
Proof.
  induction n as [|n IH]; intros s p Hw Hp Hmax.
  - replace (p + Z.of_nat 0) with p by lia.
    destruct s. cbn in Hw. subst. reflexivity.
  - replace (p + Z.of_nat (S n)) with (p + 1 + Z.of_nat n) by lia.
    cbn [repeat run_requests]. unfold bind at 1.
    cbn [perform]. unfold assign at 1.
    rewrite (IH (frameAvailable s) (p + 1)).
    + destruct s. reflexivity.
    + destruct s. cbn in Hw. subst. cbn.
      unfold FrameWaiter.onFrameAvailable. cbn [FrameWaiter.mPendingFrames].
      rewrite to_int32_id; [reflexivity|].
      unfold is_int32, INT_MIN, INT_MAX in *. lia.
    + lia.
    + lia.
Qed.

Lemma waits_return (k : nat) : forall (s : MinicapImpl.t) (p : Z),
  mWaiter s = Some (FrameWaiter.mk p) ->
  mHaveBuffer s = false ->
  Z.of_nat (S k) <= p <= INT_MAX ->
  run_requests (F:=F) pf (repeat do_waitForFrame (S k)) s
  = Returns tt
      (set_mHavePendingFrame true
         (set_mWaiter (Some (FrameWaiter.mk (p - Z.of_nat (S k)))) s)) [].
Proof.
  induction k as [|k IH]; intros s p Hw Hheld Hp.
  - destruct s. cbn in Hw, Hheld. subst. cbn [repeat]. unfold_members.
    destruct (Z.eqb_spec p 0) as [|_]; [lia|]. unfold_members.
    rewrite to_int32_id
      by (unfold is_int32, INT_MIN, INT_MAX in *; lia).
    reflexivity.
  - change (repeat do_waitForFrame (S (S k)))
      with (do_waitForFrame (F:=F) :: repeat do_waitForFrame (S k)).
    cbn [run_requests]. unfold bind at 1.
    assert (Hfirst : perform (F:=F) pf do_waitForFrame s
              = Returns tt
                  (set_mHavePendingFrame true
                     (set_mWaiter (Some (FrameWaiter.mk (p - 1))) s)) []).
    { destruct s. cbn in Hw, Hheld. subst. unfold_members.
      destruct (Z.eqb_spec p 0) as [|_]; [lia|]. unfold_members.
      rewrite to_int32_id
        by (unfold is_int32, INT_MIN, INT_MAX in *; lia).
      reflexivity. }
    rewrite Hfirst.
    rewrite (IH _ (p - 1)).
    + replace (p - Z.of_nat (S (S k))) with (p - 1 - Z.of_nat (S k)) by lia.
      destruct s. reflexivity.
    + destruct s. reflexivity.
    + destruct s. cbn in *. assumption.
    + lia.
Qed.


Lemma run_requests_app (rs1 : list (request F)) :
  forall (rs2 : list (request F)) (s s1 : MinicapImpl.t) (c1 : list call),
    run_requests pf rs1 s = Returns tt s1 c1 ->
    run_requests pf (rs1 ++ rs2) s
    = match run_requests pf rs2 s1 with
      | Returns a s2 c2 => Returns a s2 (c1 ++ c2)
      | Blocks s2 c2 => Blocks s2 (c1 ++ c2)
      | Crashes c2 => Crashes (c1 ++ c2)
      end.
Proof.
  induction rs1 as [|r rest IH]; intros rs2 s s1 c1 Hrun.
  - cbn in Hrun. injection Hrun as <- <-. cbn [app].
    now destruct (run_requests pf rs2 s).
  - cbn [run_requests] in Hrun.
    apply bind_returns in Hrun as ([] & sa & ca & cb & H1 & H2 & ->).
    cbn [app run_requests]. unfold bind at 1. rewrite H1.
    rewrite (IH rs2 sa s1 cb H2).
    destruct (run_requests pf rs2 s1); now rewrite app_assoc.
Qed.

(** Frames delivered while nobody waits are counted, not lost: after
    [n] deliveries on a session whose waiter is fresh and that holds no
    buffer, [n] calls of [waitForFrame] in a row all return, without a
    call into the platform, and the next one parks.  [n] is at most
    [INT_MAX]. *)
Theorem frames_signalled_ahead_are_all_waited_for
    (n : nat) (s : MinicapImpl.t) :
  mWaiter s = Some FrameWaiter.new ->
  mHaveBuffer s = false ->
  (0 < n)%nat ->
  Z.of_nat n <= INT_MAX ->
  run_requests (F:=F) pf
    (repeat do_frameAvailable n ++ repeat do_waitForFrame n) s
  = Returns tt (set_mHavePendingFrame true s) [] /\
  waitForFrame (set_mHavePendingFrame true s)
  = Blocks (set_mHavePendingFrame true s) [].
Proof.
  intros Hw Hheld Hn Hmax. split.
  - rewrite (run_requests_app _ _ s _ [] (frames_arrive n s 0 Hw ltac:(lia)
                                             ltac:(lia))).
    destruct n as [|k]; [lia|].
    rewrite (waits_return k _ (0 + Z.of_nat (S k))).
    + replace (0 + Z.of_nat (S k) - Z.of_nat (S k)) with 0 by lia.
      destruct s. cbn in Hw. subst. reflexivity.
    + destruct s. reflexivity.
    + destruct s. cbn in *. assumption.
    + lia.
  - destruct s. cbn in Hw, Hheld. subst. reflexivity.
Qed.

End SessionLife.

(** ** The theorems of this part on the inputs above *)

Lemma running_session_reachable :
  reachable_from (F:=symbolic) android.api22 (minicap_create 0 zero_buffer)
    running_session.
Proof.
  apply (reach_step android.api22 _ (do_applyConfigChanges composer_ok)
           (MinicapImpl.mk 0 1080 1920 540 960 1 None None None None None
              false false false zero_buffer));
    [|reflexivity].
  apply (reach_step android.api22 _ (do_setDesiredInfo desired_540_960)
           (MinicapImpl.mk 0 1080 1920 0 0 0 None None None None None
              false false false zero_buffer));
    [|reflexivity].
  apply (reach_step android.api22 _ (do_setRealInfo real_1080_1920)
           (minicap_create 0 zero_buffer));
    [apply reach_start | reflexivity].
Defined.

Lemma running_session_consistent : consistent running_session.
Proof. cbv. repeat split; discriminate. Defined.

Lemma holding_session_consistent : consistent holding_session.
Proof. cbv. repeat split; discriminate. Defined.

Lemma session_stays_consistent_when_running : consistent running_session.
Proof.
  exact (session_stays_consistent android.api22 0 zero_buffer running_session
           running_session_reachable).
Defined.

Lemma getDisplayId_of_running_session :
  MinicapImpl.getDisplayId running_session
  = MinicapImpl.Returns 0 running_session [].
Proof.
  exact (getDisplayId_is_the_created_id android.api22 0 zero_buffer
           running_session running_session_reachable).
Defined.

Lemma teardown_of_running_session :
  exists s' calls,
    minicap_free running_session = MinicapImpl.Returns tt s' calls /\
    unlocked_buffers calls = [].
Proof.
  destruct (teardown_and_reconfiguration_return android.api22 0 zero_buffer
              running_session running_session_reachable)
    as [(s' & calls & _ & Hfree & Hun & _) _].
  exists s', calls. split; [exact Hfree | exact Hun].
Defined.

Lemma wait_on_fresh_session_crashes :
  exists calls,
    MinicapImpl.waitForFrame (minicap_create 0 zero_buffer)
    = MinicapImpl.Crashes calls.
Proof.
  apply (proj1 (wait_and_read_need_a_running_display (F:=symbolic)
                  android.api22 0 zero_buffer (minicap_create 0 zero_buffer)
                  (reach_start _ _))).
  reflexivity.
Defined.

Lemma applyConfigChanges_refused_on_running_session :
  exists s' calls,
    MinicapImpl.applyConfigChanges android.api22 composer_refusing
      running_session
    = MinicapImpl.Returns false s' calls /\
    MinicapImpl.mHaveRunningDisplay s' = false.
Proof.
  destruct (applyConfigChanges_refused android.api22 composer_refusing
              running_session running_session_consistent
              ltac:(discriminate))
    as (s' & calls & Hrun & Hstopped & _).
  exists s', calls. split; [exact Hrun | exact Hstopped].
Defined.

Lemma applyConfigChanges_replaces_holding_session :
  MinicapImpl.waitForFrame
    (MinicapImpl.mk 0 1080 1920 540 960 1 (Some 2%positive)
       (Some 3%positive) (Some 4%positive) (Some 1%positive)
       (Some FrameWaiter.new) false false true buffer_540_960)
  = MinicapImpl.Blocks
      (MinicapImpl.mk 0 1080 1920 540 960 1 (Some 2%positive)
         (Some 3%positive) (Some 4%positive) (Some 1%positive)
         (Some FrameWaiter.new) false false true buffer_540_960) [].
Proof.
  exact (proj2 (proj2 (applyConfigChanges_replaces_everything android.api22
                         composer_ok holding_session
                         holding_session_consistent eq_refl))).
Defined.

Lemma applyConfigChanges_releases_holding_session_first :
  MinicapImpl.bind MinicapImpl.release
    (fun _ => MinicapImpl.applyConfigChanges android.api22 composer_ok)
    holding_session
  = MinicapImpl.applyConfigChanges android.api22 composer_ok holding_session.
Proof.
  exact (proj2 (applyConfigChanges_releases_first android.api22 composer_ok
                  holding_session holding_session_consistent) eq_refl).
Defined.

Lemma two_rounds_give_every_buffer_back :
  exists s' calls,
    run_requests android.api22 two_rounds running_session
    = MinicapImpl.Returns tt s' calls /\
    unlocked_buffers calls ++ held_buffer s' = [buffer_540_960; buffer_65536].
Proof.
  let o := eval vm_compute in
             (run_requests android.api22 two_rounds running_session) in
  match o with
  | MinicapImpl.Returns _ ?s ?c =>
      assert (Hrun : run_requests android.api22 two_rounds running_session
                     = MinicapImpl.Returns tt s c)
        by (vm_compute; reflexivity);
      exists s, c; split; [exact Hrun|];
      exact (proj1 (every_locked_buffer_is_given_back_once android.api22
                      two_rounds running_session s c
                      running_session_consistent eq_refl eq_refl Hrun))
  end.
Defined.

Lemma reading_twice_on_running_session :
  exists s' calls,
    run_requests (F:=symbolic) android.api22
      [do_consumePendingFrame (NO_ERROR, buffer_540_960) zero_frame;
       do_consumePendingFrame (NO_ERROR, buffer_65536) zero_frame;
       do_release] running_session
    = MinicapImpl.Returns tt s' calls /\
    unlocked_buffers calls = [buffer_65536].
Proof.
  exact (reading_twice_loses_the_first_buffer (F:=symbolic) android.api22
           running_session buffer_540_960 buffer_65536 zero_frame zero_frame
           running_session_consistent eq_refl eq_refl).
Defined.

Lemma wait_raises_the_pending_flag :
  exists calls,
    perform (F:=symbolic) android.api22 do_waitForFrame one_pending_session
    = MinicapImpl.Returns tt
        (MinicapImpl.set_mHavePendingFrame true running_session) calls.
Proof.
  assert (Hs : consistent one_pending_session)
    by (cbv; repeat split; discriminate).
  exact (proj2 (only_a_returned_wait_raises_the_pending_flag (F:=symbolic)
                  android.api22 do_waitForFrame one_pending_session
                  (MinicapImpl.set_mHavePendingFrame true running_session)
                  Hs eq_refl eq_refl eq_refl)).
Defined.

Lemma geometry_of_the_example_reaches_the_platform :
  In (setDisplayProjection (Some 1%positive) 1
        (android.mkRect 0 0 1080 1920) (android.mkRect 0 0 540 960))
     (calls_of
        (MinicapImpl.bind (MinicapImpl.setRealInfo real_1080_1920)
           (fun _ =>
              MinicapImpl.bind (MinicapImpl.setDesiredInfo desired_540_960)
                (fun _ =>
                   MinicapImpl.applyConfigChanges android.api22 composer_ok))
           (minicap_create 0 zero_buffer))).
Proof.
  assert (Hs : consistent (minicap_create 0 zero_buffer))
    by (cbv; repeat split).
  rewrite (geometry_reaches_the_platform android.api22 real_1080_1920
             desired_540_960 composer_ok (minicap_create 0 zero_buffer)
             Hs eq_refl);
    try (cbn; lia).
  cbn. tauto.
Defined.

Lemma three_frames_signalled_ahead :
  run_requests (F:=symbolic) android.api22
    (repeat do_frameAvailable 3 ++ repeat do_waitForFrame 3) running_session
  = MinicapImpl.Returns tt
      (MinicapImpl.set_mHavePendingFrame true running_session) [].
Proof.
  apply (frames_signalled_ahead_are_all_waited_for (F:=symbolic)
           android.api22 3 running_session eq_refl eq_refl).
  - lia.
  - cbv. discriminate.
Defined.
